(** * doxy-coverage: documentation coverage of Doxygen XML output

    A shallow embedding of [doxy-coverage.py] (a Python 2 script: it uses
    [cmp], [list.sort(cmpfunc)] and sorts the list returned by
    [dict.keys()]), followed by the properties of the definition
    classifier ([parse_definition]), of the walkers ([parse_file],
    [parse]) and of the reporter ([report]).

    Conventions of the embedding
    - an ElementTree element is a rose tree carrying its tag, its
      attributes and its [text];
    - a Python [dict] is an association list with distinct keys whose
      order is the iteration order of the dict; Python 2 leaves that
      order unspecified, so statements about the reporter quantify over
      every such list;
    - [print] appends a line to the output, an uncaught exception stops
      the computation: both are carried by the monad [M];
    - Python integers are [Z]; the floats of the per-file percentage are
      exact rationals ([Q]);
    - the file system is a record of the four functions the script calls. *)

From Stdlib Require Import List String Ascii ZArith QArith Qround Bool Lia.
From Stdlib Require Import Permutation Sorted.
From Stdlib Require OrderedTypeEx.
Import ListNotations.

Set Warnings "-register-all".

Local Open Scope string_scope.
Local Open Scope list_scope.
Local Open Scope Z_scope.

(** ** Python values *)

Module Py.

(** [None] or a [str]: what [Element.get], [Element.text] return. *)
Definition ostr := option string.

(** ["%s" % x] for [x] a string or [None]. *)
Definition str (x : ostr) : string :=
  match x with
  | Some s => s
  | None => "None"
  end.

(** [x == 'lit'] for [x] a string or [None]. *)
Definition eq_lit (x : ostr) (lit : string) : bool :=
  match x with
  | Some s => String.eqb s lit
  | None => false
  end.

(** [needle in hay] on two [str]: substring membership. *)
Fixpoint str_in (needle hay : string) : bool :=
  String.prefix needle hay ||
  match hay with
  | EmptyString => false
  | String _ hay' => str_in needle hay'
  end.

(** [x in (a, b, ...)] on a tuple of strings: equality with one component. *)
Definition in_tuple (x : ostr) (t : list string) : bool :=
  existsb (eq_lit x) t.

(** *** [int(s)] on a string

    Surrounding white space is dropped, one sign is accepted, and what
    remains must be a non-empty run of decimal digits; anything else
    raises [ValueError] ([None] here). *)

Definition is_space (c : ascii) : bool :=
  match c with
  | " "%char | "009"%char | "010"%char | "011"%char | "012"%char
  | "013"%char => true
  | _ => false
  end.

Fixpoint lstrip (s : string) : string :=
  match s with
  | String c s' => if is_space c then lstrip s' else s
  | EmptyString => EmptyString
  end.

Fixpoint rstrip (s : string) : string :=
  match s with
  | EmptyString => EmptyString
  | String c s' =>
      match rstrip s' with
      | EmptyString => if is_space c then EmptyString else String c EmptyString
      | r => String c r
      end
  end.

Definition strip (s : string) : string := rstrip (lstrip s).

Definition digit (c : ascii) : option Z :=
  let n := Z.of_nat (nat_of_ascii c) in
  if (48 <=? n) && (n <=? 57) then Some (n - 48) else None.

Fixpoint digits (acc : Z) (s : string) : option Z :=
  match s with
  | EmptyString => Some acc
  | String c s' =>
      match digit c with
      | Some d => digits (10 * acc + d) s'
      | None => None
      end
  end.

Definition unsigned (s : string) : option Z :=
  match s with
  | EmptyString => None
  | _ => digits 0 s
  end.

Definition int (s : string) : option Z :=
  match strip s with
  | String "-"%char r => option_map Z.opp (unsigned r)
  | String "+"%char r => unsigned r
  | r => unsigned r
  end.

(** *** Builtin ordering

    [cmp] on numbers, and the default order of [list.sort()] on keys
    that are [None] or strings: [None] sorts before every string,
    strings are compared character by character. *)

Definition cmp_num (x y : Q) : comparison := Qcompare x y.

Definition cmp_ostr (x y : ostr) : comparison :=
  match x, y with
  | None, None => Eq
  | None, Some _ => Lt
  | Some _, None => Gt
  | Some a, Some b => String.compare a b
  end.

(** [list.sort(cmpfunc)] is a stable sort. Every stable sort returns
    the same list for a given comparison that is a total preorder, so
    it is modelled by insertion from the right, which puts an element
    in front of the elements it does not exceed. *)
Section Sort.
Context {A : Type} (cmp : A -> A -> comparison).

Fixpoint insert (x : A) (l : list A) : list A :=
  match l with
  | [] => [x]
  | y :: l' =>
      match cmp x y with
      | Gt => y :: insert x l'
      | _ => x :: l
      end
  end.

Definition sort (l : list A) : list A := fold_right insert [] l.
End Sort.

End Py.

(** ** Dictionaries *)

Module Dict.
Section Dict.
Context {K V : Type} (eqb : K -> K -> bool).

Definition t := list (K * V).

(** [d.keys()] and [d.values()], in iteration order. *)
Definition keys (d : t) : list K := map fst d.
Definition values (d : t) : list V := map snd d.

(** [k in d] / [d[k]]. *)
Fixpoint get (k : K) (d : t) : option V :=
  match d with
  | [] => None
  | (k', v) :: d' => if eqb k k' then Some v else get k d'
  end.

(** [d[k] = v]: the value of an existing key is replaced, a new key
    is added. *)
Fixpoint set (k : K) (v : V) (d : t) : t :=
  match d with
  | [] => [(k, v)]
  | (k', v') :: d' =>
      if eqb k k' then (k, v) :: d' else (k', v') :: set k v d'
  end.

(** [not d]: the dict is empty. *)
Definition is_empty (d : t) : bool :=
  match d with [] => true | _ => false end.

(** The keys of a dict are distinct. *)
Definition wf (d : t) : Prop := NoDup (keys d).
End Dict.
End Dict.

(** ** Output, exceptions and the monad of the script *)

Inductive exn : Type :=
| TypeError
| ValueError
| ZeroDivisionError
| ParseError
| SystemExit (code : Z).

Inductive outcome (A : Type) : Type :=
| Returned (a : A)
| Raised (e : exn).
Arguments Returned {A} a.
Arguments Raised {A} e.

(** ** XML elements (xml.etree.ElementTree) *)

Inductive Element : Type :=
| Elem (tag : string) (attrib : list (string * string)) (text : Py.ostr)
       (children : list Element).

Module ET.

Definition tag (e : Element) : string :=
  match e with Elem t _ _ _ => t end.
Definition attrib (e : Element) : list (string * string) :=
  match e with Elem _ a _ _ => a end.
Definition text (e : Element) : Py.ostr :=
  match e with Elem _ _ t _ => t end.
Definition children (e : Element) : list Element :=
  match e with Elem _ _ _ c => c end.

Definition has_tag (t : string) (e : Element) : bool := String.eqb (tag e) t.

(** [e.get(key)]: the attribute, or [None]. *)
Definition get (key : string) (e : Element) : Py.ostr :=
  Dict.get String.eqb key (attrib e).

(** [e.find('./t')]: the first child with tag [t], or [None]. *)
Definition find (t : string) (e : Element) : option Element :=
  List.find (has_tag t) (children e).

(** [e.findall('t')]: the children with tag [t]. *)
Definition findall (t : string) (e : Element) : list Element :=
  filter (has_tag t) (children e).

(** [e.findall('./t/')]: ElementPath completes a path that ends in a
    slash with a star, so this is [./t/*], the child elements of the
    children with tag [t]. Character data is not an element. *)
Definition findall_under (t : string) (e : Element) : list Element :=
  flat_map children (findall t e).

(** [e.iter()]: [e] and its descendants, in document order. *)
Fixpoint iter_all (e : Element) : list Element :=
  match e with
  | Elem _ _ _ cs => e :: flat_map iter_all cs
  end.

(** [e.iter(t)]: those of them with tag [t]. *)
Definition iter (t : string) (e : Element) : list Element :=
  filter (has_tag t) (iter_all e).

End ET.

(** A definition is identified by a string, or by [None] when the
    element its name is read from has no text. *)
Definition DefinitionId := Py.ostr.

Definition defid_eqb (a b : DefinitionId) : bool :=
  match a, b with
  | Some x, Some y => String.eqb x y
  | None, None => true
  | _, _ => false
  end.

(** [FileRecord]: definition id -> (line, documented);
    [CoverageIndex]: resolved file name -> FileRecord. *)
Definition FileRecord := @Dict.t DefinitionId (Z * bool).
Definition CoverageIndex := @Dict.t string FileRecord.

Definition rec_get := @Dict.get DefinitionId (Z * bool) defid_eqb.
Definition rec_set := @Dict.set DefinitionId (Z * bool) defid_eqb.
Definition idx_get := @Dict.get string FileRecord String.eqb.
Definition idx_set := @Dict.set string FileRecord String.eqb.

(** The lines the script writes. Numbers are kept as numbers: the
    formats ([%3d], [%4d]) only pad them. *)
Inductive Line : Type :=
| SkipLine (node : Element)                      (* "skip %s " *)
| ErrorLine (msg path : string)                  (* "ERROR: ...", on stderr *)
| FileLine (pct : Z) (file : string) (yes total : Z)
                                                 (* "%3d%% - %s - (%d of %d)" *)
| UndocLine (line : Z) (d : DefinitionId)        (* " L: %4d - %s" *)
| BlankLine
| TotalLine (pct : Z).                           (* "%d%% API documentation coverage" *)

(** A computation: the lines printed so far and how it ended. *)
Definition M (A : Type) : Type := (list Line * outcome A)%type.

Definition ret {A} (a : A) : M A := ([], Returned a).
Definition raise {A} (e : exn) : M A := ([], Raised e).
Definition print (l : Line) : M unit := ([l], Returned tt).

Definition bind {A B} (c : M A) (k : A -> M B) : M B :=
  match c with
  | (out, Returned a) => let (out', r) := k a in (out ++ out', r)
  | (out, Raised e) => (out, Raised e)
  end.

Notation "x <- c ;; k" := (bind c (fun x => k))
  (at level 61, c at next level, right associativity).
Notation "c ;;; k" := (bind c (fun _ => k))
  (at level 61, right associativity).

(** [for x in l: s = body(s, x)] *)
Fixpoint foldM {S A : Type} (body : S -> A -> M S) (s : S) (l : list A) : M S :=
  match l with
  | [] => ret s
  | x :: l' => s' <- body s x ;; foldM body s' l'
  end.

(** ** The file system, as the script sees it *)

Record FileSystem : Type := {
  exists_ : string -> bool;             (* os.path.exists *)
  isfile : string -> bool;              (* os.path.isfile *)
  realpath : string -> string;          (* os.path.realpath *)
  et_parse : string -> option Element   (* ET.parse; None: it raises *)
}.

Fixpoint ends_with_slash (s : string) : bool :=
  match s with
  | EmptyString => false
  | String c EmptyString => Ascii.eqb c "/"
  | String _ s' => ends_with_slash s'
  end.

(** [os.path.join(a, b)] (posixpath). *)
Definition path_join (a b : string) : string :=
  if String.prefix "/" b then b
  else if String.eqb a "" || ends_with_slash a then (a ++ b)%string
  else (a ++ "/" ++ b)%string.

(** ** The script *)

Section Script.

Variable fs : FileSystem.

(** Lines 66-71: the loop over the three description tags, left at
    the first tag under which [findall] finds something. *)
Fixpoint documented_loop (ks : list string) (definition : Element) : bool :=
  match ks with
  | [] => false
  | k :: ks' =>
      match ET.findall_under k definition with
      | _ :: _ => true
      | [] => documented_loop ks' definition
      end
  end.

Definition description_tags : list string :=
  ["briefdescription"; "detaileddescription"; "inbodydescription"].

Definition is_documented (definition : Element) : bool :=
  documented_loop description_tags definition.

(** Lines 98-103: [definition] text, else [name] text, else the [id]
    attribute. *)
Definition resolve_name (definition : Element) : Py.ostr :=
  match ET.find "definition" definition with
  | Some d_def => ET.text d_def
  | None =>
      match ET.find "name" definition with
      | Some d_nam => ET.text d_nam
      | None => ET.get "id" definition
      end
  end.

(** Lines 105-109: the name, followed by the [argsstring] text when
    there is an [argsstring] child. *)
Definition make_defid (definition : Element) : DefinitionId :=
  let name := resolve_name definition in
  match ET.find "argsstring" definition with
  | Some d_arg => Some (Py.str name ++ Py.str (ET.text d_arg))%string
  | None => name
  end.

(** Lines 111-117: merge one entry into the record of its file. *)
Definition merge (files : CoverageIndex) (filename : string)
    (defid : DefinitionId) (entry : Z * bool) : CoverageIndex :=
  let definitions :=
    match idx_get filename files with
    | Some defs => defs
    | None => []
    end in
  idx_set filename (rec_set defid entry definitions) files.

Definition parse_definition (files : CoverageIndex) (definition : Element)
  : M CoverageIndex :=
  match ET.get "kind" definition with
  | None => raise TypeError            (* None in 'namespace' *)
  | Some kind =>
      if Py.str_in kind "namespace" then ret files
      else if String.eqb kind "function"
              && Py.eq_lit (ET.get "static" definition) "yes" then ret files
      else
        let documented := is_documented definition in
        match ET.find "location" definition with
        | None => ret files
        | Some l =>
            match ET.get "line" l, ET.get "file" l with
            | Some line, Some filename =>
                if negb (isfile fs filename) then
                  print (SkipLine definition) ;;; ret files
                else
                  let filename := realpath fs filename in
                  let defid := make_defid definition in
                  match Py.int line with
                  | None => raise ValueError
                  | Some n => ret (merge files filename defid (n, documented))
                  end
            | _, _ => ret files
            end
        end
  end.

(** Lines 121-132. *)
Definition parse_tree (files : CoverageIndex) (root : Element)
  : M CoverageIndex :=
  foldM (fun files compound =>
           files <- parse_definition files compound ;;
           foldM parse_definition files (ET.iter "memberdef" compound))
        files (ET.iter "compounddef" root).

Definition parse_file (files : CoverageIndex) (fullpath : string)
  : M CoverageIndex :=
  match et_parse fs fullpath with
  | None => raise ParseError
  | Some root => parse_tree files root
  end.

(** Lines 135-152. *)
Definition parse (path : string) : M CoverageIndex :=
  let index_fp := path_join path "index.xml" in
  if negb (exists_ fs index_fp) then
    print (ErrorLine "Documentation not present. Exiting." index_fp) ;;;
    raise (SystemExit 1)
  else
    match et_parse fs index_fp with
    | None => raise ParseError
    | Some root =>
        foldM (fun files entry =>
                 if Py.in_tuple (ET.get "kind" entry) ["dir"; "group"] then
                   ret files
                 else
                   let file_fp :=
                     path_join path (Py.str (ET.get "refid" entry) ++ ".xml")%string in
                   if isfile fs file_fp then parse_file files file_fp
                   else ret files)
              [] (ET.findall "compound" root)
    end.

End Script.

(** ** The reporter (lines 155-200) *)

Section Report.

Variable files : CoverageIndex.

(** [files[f]], for [f] one of [files.keys()]. *)
Definition index_item (f : string) : FileRecord :=
  match idx_get f files with
  | Some defs => defs
  | None => []
  end.

(** The truth value of a tuple: only the empty tuple is false, and the
    values of a file record are pairs [(line, documented)]. *)
Definition pair_truth (d : Z * bool) : bool := true.

(** [len([d for d in l if p(d)])] *)
Definition count {A} (p : A -> bool) (l : list A) : Z :=
  Z.of_nat (List.length (filter p l)).

(** [yes * 100.0 / all] *)
Definition percent (yes all : Z) : Q := inject_Z (yes * 100) / inject_Z all.

(** Lines 156-163: the filters test the pair [d] itself. *)
Definition get_coverage (f : string) : Q :=
  let defs := index_item f in
  if Dict.is_empty defs then 100%Q
  else
    let doc_yes := count pair_truth (Dict.values defs) in
    let doc_no := count (fun d => negb (pair_truth d)) (Dict.values defs) in
    percent doc_yes (doc_yes + doc_no).

Definition file_cmp (a b : string) : comparison :=
  Py.cmp_num (get_coverage a) (get_coverage b).

(** Lines 168-170. *)
Definition files_sorted : list string :=
  rev (Py.sort file_cmp (Dict.keys files)).

(** Lines 189-194: the undocumented definitions of one file. *)
Definition report_undocumented (defs : FileRecord) : M unit :=
  foldM (fun _ d =>
           match rec_get d defs with
           | Some (line, state) =>
               if negb state then print (UndocLine line d) else ret tt
           | None => ret tt
           end)
        tt (Py.sort Py.cmp_ostr (Dict.keys defs)).

(** Lines 176-194: one turn of the loop over [files_sorted]; the state
    is [(total_yes, total_no)]. [%3d] drops the fraction of [doc_per]. *)
Definition report_file (totals : Z * Z) (f : string) : M (Z * Z) :=
  let defs := index_item f in
  if Dict.is_empty defs then ret totals
  else
    let doc_yes := count (fun '(_, d) => d) (Dict.values defs) in
    let doc_no := count (fun '(_, d) => negb d) (Dict.values defs) in
    let doc_per := percent doc_yes (doc_yes + doc_no) in
    let '(total_yes, total_no) := totals in
    let total_yes := total_yes + doc_yes in
    let total_no := total_no + doc_no in
    print (FileLine (Qfloor doc_per) f doc_yes (doc_yes + doc_no)) ;;;
    report_undocumented defs ;;;
    ret (total_yes, total_no).

(** [threshold] is [ns.threshold]. On integers [/] is floor division. *)
Definition report (threshold : Z) : M Z :=
  totals <- foldM report_file (0, 0) files_sorted ;;
  let '(total_yes, total_no) := totals in
  let total_all := total_yes + total_no in
  if total_all =? 0 then raise ZeroDivisionError
  else
    let total_per := total_yes * 100 / total_all in
    print BlankLine ;;;
    print (TotalLine total_per) ;;;
    ret (if total_per >? threshold then 0 else threshold - total_per).

End Report.

(** Lines 203-223: [threshold] and [noerror] are the parsed arguments;
    [sys.exit(err)] ends the process with [err]. *)
Definition main (fs : FileSystem) (dir : string) (noerror : bool)
    (threshold : Z) : M unit :=
  files <- parse fs dir ;;
  err <- report files threshold ;;
  if noerror then ret tt else raise (SystemExit err).

(** * Vocabulary of the properties *)

(** A definition is attributed to [file] at [line] when it passes every
    test of [parse_definition]: it has a kind that the namespace test
    lets through, it is not a static function, its location names a
    regular file, resolved to [file], and a line that reads as the
    integer [line]. *)
Inductive included (fs : FileSystem) (n : Element) (file : string) (line : Z)
  : Prop :=
| Included (k : string) (l : Element) (f ln : string) :
    ET.get "kind" n = Some k ->
    Py.str_in k "namespace" = false ->
    String.eqb k "function" && Py.eq_lit (ET.get "static" n) "yes" = false ->
    ET.find "location" n = Some l ->
    ET.get "file" l = Some f ->
    ET.get "line" l = Some ln ->
    isfile fs f = true ->
    realpath fs f = file ->
    Py.int ln = Some line ->
    included fs n file line.

(** The elements that a run on the directory [path] hands to the
    classifier: the [compounddef] elements of the documents of the
    compounds listed in the index (directories and groups apart, and
    provided the document is a file on disk), and their [memberdef]
    descendants. *)
Definition classified (fs : FileSystem) (path : string) (n : Element) : Prop :=
  exists index entry root compound,
    et_parse fs (path_join path "index.xml") = Some index /\
    In entry (ET.findall "compound" index) /\
    Py.in_tuple (ET.get "kind" entry) ["dir"; "group"] = false /\
    isfile fs (path_join path (Py.str (ET.get "refid" entry) ++ ".xml")%string)
      = true /\
    et_parse fs (path_join path (Py.str (ET.get "refid" entry) ++ ".xml")%string)
      = Some root /\
    In compound (ET.iter "compounddef" root) /\
    (n = compound \/ In n (ET.iter "memberdef" compound)).

(** Every entry of the index was merged for an element satisfying [Q]
    whose kind is not [namespace]. *)
Definition accounted (fs : FileSystem) (Q : Element -> Prop)
    (files : CoverageIndex) : Prop :=
  forall file defs d line documented,
    idx_get file files = Some defs ->
    rec_get d defs = Some (line, documented) ->
    exists n,
      Q n /\ ET.get "kind" n <> Some "namespace" /\
      included fs n file line /\
      make_defid n = d /\ is_documented n = documented.

(** The entries of all file records, the number of documented ones and
    their number: the figures the global percentage is about. *)
Definition all_entries (files : CoverageIndex) : list (Z * bool) :=
  flat_map (fun fd => Dict.values (snd fd)) files.

Definition total_documented (files : CoverageIndex) : Z :=
  count snd (all_entries files).

Definition total_undocumented (files : CoverageIndex) : Z :=
  count (fun e => negb (snd e)) (all_entries files).

Definition total_definitions (files : CoverageIndex) : Z :=
  Z.of_nat (List.length (all_entries files)).

Definition zsum (l : list Z) : Z := fold_right Z.add 0 l.

(** The per-file coverage: documented count * 100 / count, 100 for a
    record without definitions. *)
Definition file_coverage (defs : FileRecord) : Q :=
  match defs with
  | [] => 100%Q
  | _ => percent (count snd (Dict.values defs))
                 (Z.of_nat (List.length (Dict.values defs)))
  end.

Definition per_file_line (l : Line) : Prop :=
  match l with
  | FileLine _ _ _ _ | UndocLine _ _ => True
  | _ => False
  end.

(** The files that have a line in the output, in the order of the lines. *)
Definition printed_files (out : list Line) : list string :=
  flat_map (fun l => match l with FileLine _ f _ _ => [f] | _ => [] end) out.

Definition has_definitions (files : CoverageIndex) (f : string) : bool :=
  negb (Dict.is_empty (index_item files f)).

(** ** Sample data *)

Module Sample.

Definition para (t : string) : Element := Elem "para" [] (Some t) [].

Definition described (t : string) : list Element :=
  [Elem "briefdescription" [] None [para t];
   Elem "detaileddescription" [] None [];
   Elem "inbodydescription" [] None []].

Definition undescribed : list Element :=
  [Elem "briefdescription" [] None [];
   Elem "detaileddescription" [] None [];
   Elem "inbodydescription" [] None []].

Definition location (file line : string) : Element :=
  Elem "location" [("file", file); ("line", line)] None [].

Definition function (id name args : string) (descr : list Element)
    (loc : Element) : Element :=
  Elem "memberdef" [("kind", "function"); ("id", id); ("static", "no")] None
    ([Elem "name" [] (Some name) [];
      Elem "argsstring" [] (Some args) []] ++ descr ++ [loc]).


(** Two functions of [api.h], the first one documented. *)
Definition add := function "f1" "add" "(int a, int b)"
                    (described "Adds.") (location "api.h" "10").
Definition sub := function "f2" "sub" "(int a, int b)"
                    undescribed (location "api.h" "20").

Definition api_xml : Element :=
  Elem "doxygen" [] None
    [Elem "compounddef" [("kind", "file"); ("id", "api_8h")] None
       [Elem "compoundname" [] (Some "api.h") [];
        Elem "sectiondef" [("kind", "func")] None [add; sub];
        Elem "location" [("file", "api.h")] None []]].

Definition index_xml : Element :=
  Elem "doxygenindex" [] None
    [Elem "compound" [("refid", "api_8h"); ("kind", "file")] None [];
     Elem "compound" [("refid", "dir_src"); ("kind", "dir")] None []].

(** A directory [xml] holding the two documents; [api.h] is the only
    source file on disk. *)
Definition disk : FileSystem := {|
  exists_ := fun p => String.eqb p "xml/index.xml"
                      || String.eqb p "xml/api_8h.xml"
                      || String.eqb p "api.h";
  isfile := fun p => String.eqb p "xml/index.xml"
                     || String.eqb p "xml/api_8h.xml"
                     || String.eqb p "api.h";
  realpath := fun p => ("/src/" ++ p)%string;
  et_parse := fun p =>
    if String.eqb p "xml/index.xml" then Some index_xml
    else if String.eqb p "xml/api_8h.xml" then Some api_xml
    else None
|}.

End Sample.

(** A function whose brief description is character data placed
    directly in the description element. *)
Definition bare_text_function : Element :=
  Elem "memberdef" [("kind", "function"); ("id", "f1"); ("static", "no")] None
    [Elem "name" [] (Some "add") [];
     Elem "argsstring" [] (Some "(int a, int b)") [];
     Elem "briefdescription" [] (Some "Adds two numbers.") [];
     Elem "detaileddescription" [] None [];
     Elem "inbodydescription" [] None [];
     Sample.location "api.h" "10"].

(** A member without a kind attribute and without a location. *)
Definition kindless_member : Element :=
  Elem "memberdef" [("id", "m1")] None [Elem "name" [] (Some "m") []].

(** A static function whose file is gone. *)
Definition stale_static : Element :=
  Elem "memberdef" [("kind", "function"); ("id", "u1"); ("static", "yes")] None
    [Elem "name" [] (Some "helper") []; Sample.location "old/util.c" "12"].

(** A namespace compound with a description, next to the file compound
    of the sample. *)
Definition namespace_xml : Element :=
  Elem "doxygen" [] None
    [Elem "compounddef" [("kind", "namespace"); ("id", "namespacemath")] None
       ([Elem "compoundname" [] (Some "math") []]
        ++ Sample.described "Arithmetic."
        ++ [Sample.location "api.h" "1"])].

Definition disk_with_namespace : FileSystem := {|
  exists_ := exists_ Sample.disk;
  isfile := fun p => String.eqb p "xml/namespacemath.xml" || isfile Sample.disk p;
  realpath := realpath Sample.disk;
  et_parse := fun p =>
    if String.eqb p "xml/index.xml" then
      Some (Elem "doxygenindex" [] None
              [Elem "compound" [("refid", "namespacemath"); ("kind", "namespace")]
                 None [];
               Elem "compound" [("refid", "api_8h"); ("kind", "file")] None []])
    else if String.eqb p "xml/namespacemath.xml" then Some namespace_xml
    else et_parse Sample.disk p
|}.

Module Overloads.


End Overloads.

(** Sample indexes. *)
Module Indexes.

Definition documented_file : FileRecord := [(Some "f()", (1, true))].
Definition undocumented_file : FileRecord := [(Some "g()", (2, false))].

(** The fully documented file comes first in the iteration order. *)
Definition high_then_low : CoverageIndex :=
  [("/src/a.c", documented_file); ("/src/b.c", undocumented_file)].

(** The same files, [a.c] first again, with the records exchanged. *)
Definition low_then_high : CoverageIndex :=
  [("/src/a.c", undocumented_file); ("/src/b.c", documented_file)].

(** Four documented definitions out of five. *)
Definition four_of_five : CoverageIndex :=
  [("/src/api.h",
    [(Some "a", (1, true)); (Some "b", (2, true)); (Some "c", (3, true));
     (Some "d", (4, true)); (Some "e", (5, false))])].

(** Seven documented definitions out of eleven, in two files. *)
Definition seven_of_eleven : CoverageIndex :=
  [("/src/x.h",
    [(Some "a", (1, true)); (Some "b", (2, true)); (Some "c", (3, false));
     (Some "d", (4, true)); (Some "e", (5, false)); (Some "f", (6, true))]);
   ("/src/y.h",
    [(Some "g", (1, true)); (Some "h", (2, false)); (Some "i", (3, true));
     (Some "j", (4, true)); (Some "k", (5, false))])].

(** Files known to the index, none of them with a definition. *)
Definition only_empty_records : CoverageIndex := [("/src/x.h", []); ("/src/y.h", [])].

End Indexes.

(** ** Vocabulary of the further properties *)

(** The document of a compound of the index, and whether the loop of
    [parse] reads it: the compound is neither a directory nor a group
    and its document is a file on disk. *)
Definition compound_document (path : string) (entry : Element) : string :=
  path_join path (Py.str (ET.get "refid" entry) ++ ".xml")%string.

Definition compound_is_read (fs : FileSystem) (path : string) (entry : Element)
  : bool :=
  negb (Py.in_tuple (ET.get "kind" entry) ["dir"; "group"])
  && isfile fs (compound_document path entry).

(** The index is a dict of non-empty dicts: distinct file names, and in
    each record distinct ids and at least one definition. *)
Definition index_ok (files : CoverageIndex) : Prop :=
  Dict.wf files /\
  forall f defs, In (f, defs) files -> Dict.wf defs /\ defs <> [].

(** A diagnostic line of the classifier: it names an element that passes
    the kind tests and whose location names a file that is not on disk. *)
Definition skip_line (fs : FileSystem) (l : Line) : Prop :=
  match l with
  | SkipLine n =>
      exists k loc f,
        ET.get "kind" n = Some k /\
        Py.str_in k "namespace" = false /\
        ET.find "location" n = Some loc /\
        ET.get "file" loc = Some f /\
        isfile fs f = false
  | _ => False
  end.

(** The ids of the lines of undocumented definitions, in output order. *)
Definition undocumented_ids (out : list Line) : list DefinitionId :=
  flat_map (fun l => match l with UndocLine _ d => [d] | _ => [] end) out.

(** [a] does not sort after [b]. *)
Definition id_le (a b : DefinitionId) : Prop := Py.cmp_ostr a b <> Gt.

(** A directory whose index lists no compound. *)
Definition empty_disk : FileSystem := {|
  exists_ := fun p => String.eqb p "xml/index.xml";
  isfile := fun p => String.eqb p "xml/index.xml";
  realpath := fun p => p;
  et_parse := fun p =>
    if String.eqb p "xml/index.xml" then Some (Elem "doxygenindex" [] None [])
    else None
|}.

(** A directory without [index.xml]. *)
Definition no_disk : FileSystem := {|
  exists_ := fun _ => false;
  isfile := fun _ => false;
  realpath := fun p => p;
  et_parse := fun _ => None
|}.

(** A function whose line attribute is not a number. *)
Definition bad_line_function : Element :=
  Sample.function "f3" "mul" "(int a, int b)" (Sample.described "Multiplies.")
    (Sample.location "api.h" "ten").

(** A document with a documented static function of [api.h]. *)
Definition static_xml : Element :=
  Elem "doxygen" [] None
    [Elem "compounddef" [("kind", "file"); ("id", "util_8c")] None
       [Elem "sectiondef" [("kind", "func")] None
          [Elem "memberdef"
             [("kind", "function"); ("id", "u2"); ("static", "yes")] None
             ([Elem "name" [] (Some "helper") []]
              ++ Sample.described "Helps."
              ++ [Sample.location "api.h" "5"])]]].

Definition disk_with_static : FileSystem := {|
  exists_ := exists_ Sample.disk;
  isfile := fun p => String.eqb p "xml/util_8c.xml" || isfile Sample.disk p;
  realpath := realpath Sample.disk;
  et_parse := fun p =>
    if String.eqb p "xml/index.xml" then
      Some (Elem "doxygenindex" [] None
              [Elem "compound" [("refid", "util_8c"); ("kind", "file")] None [];
               Elem "compound" [("refid", "api_8h"); ("kind", "file")] None []])
    else if String.eqb p "xml/util_8c.xml" then Some static_xml
    else et_parse Sample.disk p
|}.

(** The index has an entry for the id [d] in the record of [file]. *)
Definition recorded (files : CoverageIndex) (file : string) (d : DefinitionId)
  : Prop :=
  exists defs v, idx_get file files = Some defs /\ rec_get d defs = Some v.

(** A documented function whose file is gone, in a document of its own
    next to the one of the sample. *)
Definition gone_function : Element :=
  Sample.function "f9" "old" "(void)" (Sample.described "Old.")
    (Sample.location "gone.h" "3").

Definition stale_xml : Element :=
  Elem "doxygen" [] None
    [Elem "compounddef" [("kind", "file"); ("id", "gone_8h")] None
       [Elem "sectiondef" [("kind", "func")] None [gone_function; stale_static];
        Elem "location" [("file", "gone.h")] None []]].

Definition disk_with_stale : FileSystem := {|
  exists_ := exists_ Sample.disk;
  isfile := fun p => String.eqb p "xml/gone_8h.xml" || isfile Sample.disk p;
  realpath := realpath Sample.disk;
  et_parse := fun p =>
    if String.eqb p "xml/index.xml" then
      Some (Elem "doxygenindex" [] None
              [Elem "compound" [("refid", "gone_8h"); ("kind", "file")] None [];
               Elem "compound" [("refid", "api_8h"); ("kind", "file")] None []])
    else if String.eqb p "xml/gone_8h.xml" then Some stale_xml
    else et_parse Sample.disk p
|}.

(** * Properties *)

(** ** Strings *)

Lemma prefix_iff (a b : string) :
  String.prefix a b = true <-> exists s, b = (a ++ s)%string.
Proof.
  revert b; induction a as [|c a IH]; intros b; simpl.
  - split; [intros _; exists b|]; destruct b; reflexivity.
  - destruct b as [|c' b]; simpl.
    + split; [discriminate | intros [s H]; discriminate].
    + destruct (ascii_dec c c') as [->|Hne].
      * rewrite IH; split; intros [s H]; exists s; congruence.
      * split; [discriminate | intros [s H]; congruence].
Qed.

Lemma str_in_iff (needle hay : string) :
  Py.str_in needle hay = true <->
  exists pre post, hay = (pre ++ needle ++ post)%string.
Proof.
  induction hay as [|c hay IH]; cbn [Py.str_in];
    rewrite orb_true_iff, prefix_iff.
  - split.
    + intros [[s H]|H]; [exists "", s; exact H | discriminate].
    + intros [[|c pre] [post H]]; [left; exists post; exact H | discriminate].
  - rewrite IH; split.
    + intros [[s H]|[pre [post H]]].
      * exists "", s; exact H.
      * exists (String c pre), post; simpl; now rewrite H.
    + intros [[|c' pre] [post H]].
      * left; exists post; exact H.
      * right; exists pre, post; simpl in H; congruence.
Qed.


Lemma defid_eqb_spec (a b : DefinitionId) : reflect (a = b) (defid_eqb a b).
Proof.
  destruct a as [x|], b as [y|]; simpl; try (constructor; congruence).
  destruct (String.eqb_spec x y); constructor; congruence.
Qed.

(** ** Dictionaries *)

Section DictFacts.
Context {K V : Type} (eqb : K -> K -> bool).
Hypothesis eqb_spec : forall a b, reflect (a = b) (eqb a b).

Lemma get_set_same (k : K) (v : V) (d : Dict.t) :
  Dict.get eqb k (Dict.set eqb k v d) = Some v.
Proof.
  induction d as [|[k' v'] d IH]; simpl.
  - now destruct (eqb_spec k k).
  - destruct (eqb_spec k k') as [->|Hne]; simpl.
    + now destruct (eqb_spec k' k').
    + now destruct (eqb_spec k k').
Qed.

Lemma get_set_other (k k0 : K) (v : V) (d : Dict.t) :
  k0 <> k -> Dict.get eqb k0 (Dict.set eqb k v d) = Dict.get eqb k0 d.
Proof.
  intros Hne; induction d as [|[k' v'] d IH]; simpl.
  - now destruct (eqb_spec k0 k).
  - destruct (eqb_spec k k') as [->|Hk]; simpl.
    + now destruct (eqb_spec k0 k').
    + destruct (eqb_spec k0 k'); [reflexivity | exact IH].
Qed.

Lemma get_In (k : K) (v : V) (d : Dict.t) :
  Dict.get eqb k d = Some v -> In (k, v) d.
Proof.
  induction d as [|[k' v'] d IH]; simpl; [discriminate|].
  destruct (eqb_spec k k') as [->|Hk]; intros H.
  - left; congruence.
  - right; auto.
Qed.

Lemma In_get (k : K) (v : V) (d : Dict.t) :
  Dict.wf d -> In (k, v) d -> Dict.get eqb k d = Some v.
Proof.
  unfold Dict.wf, Dict.keys.
  induction d as [|[k' v'] d IH]; simpl; [contradiction|].
  intros Hnd [H|H]; inversion Hnd as [|? ? Hnotin Hnd']; subst.
  - injection H as -> ->. now destruct (eqb_spec k k).
  - destruct (eqb_spec k k') as [->|Hk]; [|auto].
    exfalso; apply Hnotin. change k' with (fst (k', v)). now apply in_map.
Qed.
End DictFacts.

(** ** The monad *)

Lemma bind_ret_l {A B} (a : A) (k : A -> M B) : bind (ret a) k = k a.
Proof. unfold bind, ret; simpl. now destruct (k a). Qed.

Lemma bind_nil_returned {A B} (a : A) (k : A -> M B) :
  bind ([], Returned a) k = k a.
Proof. exact (bind_ret_l a k). Qed.

Lemma bind_returned {A B} (c : M A) (k : A -> M B) out b :
  bind c k = (out, Returned b) ->
  exists out1 a out2,
    c = (out1, Returned a) /\ k a = (out2, Returned b) /\ out = out1 ++ out2.
Proof.
  destruct c as [out1 [a|e]]; simpl; [|discriminate].
  destruct (k a) as [out2 r] eqn:Hk; intros H; injection H as <- ->.
  now exists out1, a, out2.
Qed.

(** An invariant of the state that every turn keeps holds at the end
    of a loop that returns. *)
Lemma foldM_invariant {S A} (body : S -> A -> M S) (I : S -> Prop)
    (P : A -> Prop) :
  (forall s x out s', P x -> I s -> body s x = (out, Returned s') -> I s') ->
  forall l s out s',
    (forall x, In x l -> P x) -> I s ->
    foldM body s l = (out, Returned s') -> I s'.
Proof.
  intros Hstep l; induction l as [|x l IH]; intros s out s' HP Hs; simpl.
  - intros H; injection H as _ <-; exact Hs.
  - intros H. apply bind_returned in H as (o1 & s1 & o2 & Hb & Hf & _).
    eapply IH; [| |exact Hf].
    + intros y Hy; apply HP; now right.
    + eapply Hstep; [apply HP; now left | exact Hs | exact Hb].
Qed.

(** ** The classifier *)

Lemma parse_definition_included fs files n file line :
  included fs n file line ->
  parse_definition fs files n =
  ret (merge files file (make_defid n) (line, is_documented n)).
Proof.
  intros [k l f ln Hk Hns Hst Hl Hf Hln Hfile Hreal Hint].
  unfold parse_definition.
  now rewrite Hk, Hns, Hst, Hl, Hln, Hf, Hfile, Hreal, Hint.
Qed.

(** Whenever the classifier returns, it returns the index it was given
    or the index with the entry of an included definition merged in. *)
Lemma parse_definition_returned fs files n out files' :
  parse_definition fs files n = (out, Returned files') ->
  files' = files \/
  exists file line,
    included fs n file line /\
    files' = merge files file (make_defid n) (line, is_documented n).
Proof.
  unfold parse_definition.
  destruct (ET.get "kind" n) as [k|] eqn:Hk; [|discriminate].
  destruct (Py.str_in k "namespace") eqn:Hns;
    [intros H; injection H as _ <-; now left|].
  destruct (String.eqb k "function" && Py.eq_lit (ET.get "static" n) "yes")
    eqn:Hst; [intros H; injection H as _ <-; now left|].
  destruct (ET.find "location" n) as [l|] eqn:Hl;
    [|intros H; injection H as _ <-; now left].
  destruct (ET.get "line" l) as [ln|] eqn:Hln;
    [|intros H; injection H as _ <-; now left].
  destruct (ET.get "file" l) as [f|] eqn:Hf;
    [|intros H; injection H as _ <-; now left].
  destruct (isfile fs f) eqn:Hfile; simpl;
    [|intros H; injection H as _ <-; now left].
  destruct (Py.int ln) as [line|] eqn:Hint; [|discriminate].
  intros H; injection H as _ <-. right.
  exists (realpath fs f), line; split; [|reflexivity].
  now apply (Included fs n _ _ k l f ln).
Qed.

Lemma included_not_namespace fs n file line :
  included fs n file line -> ET.get "kind" n <> Some "namespace".
Proof.
  intros [k l f ln Hk Hns _ _ _ _ _ _ _] H.
  rewrite Hk in H; injection H as ->. discriminate.
Qed.

(** *** Lookups after a merge *)

Lemma merge_get_same files file d v :
  exists defs,
    idx_get file (merge files file d v) = Some defs /\
    rec_get d defs = Some v /\
    (forall d', d' <> d ->
       rec_get d' defs =
       match idx_get file files with
       | Some defs0 => rec_get d' defs0
       | None => None
       end).
Proof.
  unfold merge, idx_get, idx_set.
  eexists; split; [apply (get_set_same _ String.eqb_spec)|].
  split; [apply (get_set_same _ defid_eqb_spec)|].
  intros d' Hd'. unfold rec_get, rec_set.
  rewrite (get_set_other _ defid_eqb_spec) by exact Hd'.
  now destruct (Dict.get String.eqb file files).
Qed.

Lemma merge_get_other files file d v file' :
  file' <> file -> idx_get file' (merge files file d v) = idx_get file' files.
Proof.
  intros H; unfold merge, idx_get, idx_set.
  now apply (get_set_other _ String.eqb_spec).
Qed.

(** An entry found after a merge is the merged one or was there before. *)
Lemma merge_entry files file d v file' defs' d' v' :
  idx_get file' (merge files file d v) = Some defs' ->
  rec_get d' defs' = Some v' ->
  (file' = file /\ d' = d /\ v' = v) \/
  exists defs0, idx_get file' files = Some defs0 /\ rec_get d' defs0 = Some v'.
Proof.
  intros Hf Hd.
  destruct (string_dec file' file) as [->|Hne].
  - destruct (merge_get_same files file d v) as (defs & Hget & Hsame & Hother).
    rewrite Hget in Hf; injection Hf as <-.
    destruct (defid_eqb_spec d' d) as [->|Hd'].
    + left; repeat split; congruence.
    + right. rewrite (Hother d' Hd') in Hd.
      destruct (idx_get file files) as [defs0|]; [|discriminate].
      now exists defs0.
  - right. rewrite merge_get_other in Hf by exact Hne. now exists defs'.
Qed.

(** *** Exclusion by kind *)

(** C9. A definition whose kind attribute is a substring of the string
    [namespace] (such as [name], [space] or [a]) leaves the index as it
    was and prints nothing: line 59 tests membership in the string
    ['namespace'], not in a one-element tuple. *)
Theorem kind_inside_namespace_passes_through :
  forall fs files n k pre post,
    ET.get "kind" n = Some k ->
    "namespace" = (pre ++ k ++ post)%string ->
    parse_definition fs files n = ([], Returned files).
Proof.
  intros fs files n k pre post Hk Hsub.
  assert (Hin : Py.str_in k "namespace" = true)
    by (apply str_in_iff; now exists pre, post).
  unfold parse_definition. now rewrite Hk, Hin.
Qed.

Lemma kind_inside_namespace_passes_through_witness :
  let files := [("/src/api.h", [(Some "add", (10, true))])] in
  let node k := Elem "memberdef" [("kind", k); ("id", "m1")] None
                  (Sample.described "Text." ++ [Sample.location "api.h" "7"]) in
  parse_definition Sample.disk files (node "name") = ([], Returned files) /\
  parse_definition Sample.disk files (node "space") = ([], Returned files) /\
  parse_definition Sample.disk files (node "a") = ([], Returned files).
Proof.
  intros files node. split; [|split].
  - apply (kind_inside_namespace_passes_through _ _ _ "name" "" "space");
      reflexivity.
  - apply (kind_inside_namespace_passes_through _ _ _ "space" "name" "");
      reflexivity.
  - apply (kind_inside_namespace_passes_through _ _ _ "a" "n" "mespace");
      reflexivity.
Defined.

(** *** Definitions without a usable location *)

(** C6 fails on the code. [kindless_member] has no location child, and
    the classifier does not return the index it was given: it raises.
    Line 59 tests [definition.get('kind') in ('namespace')], where
    [('namespace')] is a string and not a one-element tuple, so an
    element without a kind attribute puts [None] on the left of a
    membership test in a string. The tests of lines 62 and 144 let a
    missing kind through. *)
Lemma kindless_member_raises :
  ET.find "location" kindless_member = None /\
  ET.get "kind" kindless_member = None /\
  parse_definition Sample.disk Indexes.four_of_five kindless_member =
  ([], Raised TypeError) /\
  parse_definition Sample.disk Indexes.four_of_five kindless_member <>
  ([], Returned Indexes.four_of_five).
Proof. repeat split. discriminate. Qed.

(** X17. A definition that carries a kind attribute and has no
    location child, or whose location child lacks the file or the line
    attribute, is returned from with the index it came with, no file
    record added, changed or removed, and nothing is printed. *)
Theorem missing_location_passes_through :
  forall fs files n k,
    ET.get "kind" n = Some k ->
    (ET.find "location" n = None \/
     exists l, ET.find "location" n = Some l /\
               (ET.get "file" l = None \/ ET.get "line" l = None)) ->
    parse_definition fs files n = ([], Returned files).
Proof.
  intros fs files n k Hk Hloc. unfold parse_definition. rewrite Hk.
  destruct (Py.str_in k "namespace"); [reflexivity|].
  destruct (String.eqb k "function" && Py.eq_lit (ET.get "static" n) "yes");
    [reflexivity|].
  destruct Hloc as [Hnone | (l & Hl & [Hf | Hln])].
  - now rewrite Hnone.
  - rewrite Hl, Hf. now destruct (ET.get "line" l).
  - now rewrite Hl, Hln.
Qed.

Lemma missing_location_passes_through_witness :
  let files := [("/src/api.h", [(Some "add", (10, true))])] in
  let bare := Elem "memberdef" [("kind", "typedef"); ("id", "t1")] None
                (Sample.described "Text.") in
  let no_line := Elem "compounddef" [("kind", "file"); ("id", "api_8h")] None
                   [Elem "location" [("file", "api.h")] None []] in
  let no_file := Elem "memberdef" [("kind", "enum"); ("id", "e1")] None
                   [Elem "location" [("line", "4")] None []] in
  parse_definition Sample.disk files bare = ([], Returned files) /\
  parse_definition Sample.disk files no_line = ([], Returned files) /\
  parse_definition Sample.disk files no_file = ([], Returned files).
Proof.
  intros files bare no_line no_file. split; [|split].
  - apply (missing_location_passes_through _ _ _ "typedef");
      [reflexivity | left; reflexivity].
  - apply (missing_location_passes_through _ _ _ "file"); [reflexivity|].
    right. exists (Elem "location" [("file", "api.h")] None []).
    split; [reflexivity | right; reflexivity].
  - apply (missing_location_passes_through _ _ _ "enum"); [reflexivity|].
    right. exists (Elem "location" [("line", "4")] None []).
    split; [reflexivity | left; reflexivity].
Defined.

(** *** Definitions of files that are not on disk *)

(** C7, as stated, fails: the static function [stale_static] names a
    file that is not on disk, and the classifier returns without the
    diagnostic line, since the exclusion by kind comes first. *)
Lemma stale_static_is_skipped_silently :
  (exists l, ET.find "location" stale_static = Some l /\
             ET.get "file" l = Some "old/util.c") /\
  isfile Sample.disk "old/util.c" = false /\
  parse_definition Sample.disk [] stale_static = ([], Returned []) /\
  ~ In (SkipLine stale_static) (fst (parse_definition Sample.disk [] stale_static)).
Proof.
  split; [eexists; split; reflexivity|].
  split; [reflexivity|]. split; [reflexivity|]. simpl; tauto.
Qed.

(** C7, amended. A definition that the kind tests let through and whose
    location has both a file and a line attribute, the file not being a
    regular file on disk: the classifier prints the diagnostic line of
    that node and returns the index unchanged, and a loop over the
    definitions goes on with the next one. *)
Theorem missing_file_is_reported_and_skipped :
  forall fs files n k l f ln rest,
    ET.get "kind" n = Some k ->
    Py.str_in k "namespace" = false ->
    String.eqb k "function" && Py.eq_lit (ET.get "static" n) "yes" = false ->
    ET.find "location" n = Some l ->
    ET.get "file" l = Some f ->
    ET.get "line" l = Some ln ->
    isfile fs f = false ->
    parse_definition fs files n = ([SkipLine n], Returned files) /\
    foldM (parse_definition fs) files (n :: rest) =
    (SkipLine n :: fst (foldM (parse_definition fs) files rest),
     snd (foldM (parse_definition fs) files rest)).
Proof.
  intros fs files n k l f ln rest Hk Hns Hst Hl Hf Hln Hfile.
  assert (Hone : parse_definition fs files n = ([SkipLine n], Returned files)).
  { unfold parse_definition. now rewrite Hk, Hns, Hst, Hl, Hln, Hf, Hfile. }
  split; [exact Hone|].
  cbn [foldM]. rewrite Hone. simpl.
  now destruct (foldM (parse_definition fs) files rest).
Qed.

Lemma missing_file_is_reported_and_skipped_witness :
  let gone := Sample.function "f9" "old" "(void)" (Sample.described "Old.")
                (Sample.location "gone.h" "3") in
  parse_definition Sample.disk [] gone = ([SkipLine gone], Returned []) /\
  foldM (parse_definition Sample.disk) [] [gone; Sample.add] =
  ([SkipLine gone],
   Returned [("/src/api.h", [(Some "add(int a, int b)", (10, true))])]).
Proof.
  intros gone.
  exact (missing_file_is_reported_and_skipped Sample.disk [] gone "function"
           (Sample.location "gone.h" "3") "gone.h" "3" [Sample.add]
           eq_refl eq_refl eq_refl eq_refl eq_refl eq_refl eq_refl).
Defined.

(** *** The documented flag *)

Lemma flat_map_nonempty {A B} (f : A -> list B) (l : list A) :
  flat_map f l <> [] <-> exists x, In x l /\ f x <> [].
Proof.
  induction l as [|a l IH]; simpl.
  - split; [congruence | intros (x & [] & _)].
  - split.
    + intros H. destruct (f a) as [|b fa] eqn:Hfa.
      * simpl in H. apply IH in H as (x & Hx & Hfx). exists x; auto.
      * exists a; split; [now left | congruence].
    + intros (x & [->|Hx] & Hfx) H; apply app_eq_nil in H as [Ha Hl].
      * contradiction.
      * apply IH in Hl; [exact Hl | now exists x].
Qed.

Lemma findall_under_nonempty (k : string) (n : Element) :
  ET.findall_under k n <> [] <->
  exists b, In b (ET.children n) /\ ET.tag b = k /\ ET.children b <> [].
Proof.
  unfold ET.findall_under, ET.findall. rewrite flat_map_nonempty.
  split.
  - intros (b & Hb & Hc). apply filter_In in Hb as [Hin Htag].
    exists b; repeat split; auto. now apply String.eqb_eq.
  - intros (b & Hin & Htag & Hc). exists b; split; [|exact Hc].
    apply filter_In; split; [exact Hin | now apply String.eqb_eq].
Qed.

Lemma documented_loop_true (ks : list string) (n : Element) :
  documented_loop ks n = true <->
  exists k, In k ks /\ ET.findall_under k n <> [].
Proof.
  induction ks as [|k ks IH]; simpl.
  - split; [discriminate | intros (k & [] & _)].
  - destruct (ET.findall_under k n) as [|e es] eqn:Hk.
    + rewrite IH. split.
      * intros (k' & Hin & Hne); exists k'; auto.
      * intros (k' & [<-|Hin] & Hne); [congruence | now exists k'].
    + split; [intros _ | reflexivity].
      exists k; split; [now left | congruence].
Qed.

(** C2, as stated, fails: the briefdescription of [bare_text_function]
    contains text, as character data of the description element itself,
    and the classifier records the function as undocumented. The path
    [./briefdescription/] selects child elements only. *)
Lemma bare_text_is_not_documented :
  (exists b,
     In b (ET.children bare_text_function) /\
     ET.tag b = "briefdescription" /\
     ET.text b = Some "Adds two numbers.") /\
  is_documented bare_text_function = false /\
  parse_definition Sample.disk [] bare_text_function =
  ([], Returned [("/src/api.h", [(Some "add(int a, int b)", (10, false))])]).
Proof.
  split; [|split; reflexivity].
  eexists; split; [right; right; left; reflexivity | split; reflexivity].
Qed.

(** C2, amended. The documented flag of a definition is true exactly
    when one of its briefdescription, detaileddescription or
    inbodydescription children has at least one child element (the loop
    tries the three tags in this order and stops at the first hit). In
    particular a briefdescription that contains text inside a child
    element, such as the para that Doxygen writes, makes the definition
    documented. *)
Theorem documented_iff_some_description_has_an_element :
  forall n,
    (is_documented n = true <->
     exists b, In b (ET.children n) /\ In (ET.tag b) description_tags /\
               ET.children b <> []) /\
    (forall b e t,
       In b (ET.children n) -> ET.tag b = "briefdescription" ->
       In e (flat_map ET.iter_all (ET.children b)) ->
       ET.text e = Some t -> t <> "" ->
       is_documented n = true).
Proof.
  intros n.
  assert (Hiff : is_documented n = true <->
                 exists b, In b (ET.children n) /\
                           In (ET.tag b) description_tags /\
                           ET.children b <> []).
  { unfold is_documented. rewrite documented_loop_true. split.
    - intros (k & Hk & Hne). apply findall_under_nonempty in Hne
        as (b & Hin & Htag & Hc).
      exists b; repeat split; auto. now rewrite Htag.
    - intros (b & Hin & Htag & Hc). exists (ET.tag b); split; [exact Htag|].
      apply findall_under_nonempty. now exists b. }
  split; [exact Hiff|].
  intros b e t Hin Htag He _ _. apply Hiff.
  exists b; split; [exact Hin|]. split; [rewrite Htag; now left|].
  intros Hnil; rewrite Hnil in He; exact He.
Qed.

Lemma documented_iff_some_description_has_an_element_witness :
  is_documented Sample.add = true /\ is_documented Sample.sub = false.
Proof.
  split.
  - apply (proj2 (documented_iff_some_description_has_an_element Sample.add)
             (Elem "briefdescription" [] None [Sample.para "Adds."])
             (Sample.para "Adds.") "Adds.").
    + simpl; tauto.
    + reflexivity.
    + simpl; tauto.
    + reflexivity.
    + discriminate.
  - apply not_true_is_false. intros H.
    apply (proj1 (documented_iff_some_description_has_an_element Sample.sub)) in H
      as (b & Hin & _ & Hc).
    simpl in Hin.
    repeat (destruct Hin as [<-|Hin]; [try discriminate; now apply Hc|]).
    exact Hin.
Defined.

(** *** Where the entries of the index come from *)

Lemma accounted_empty fs Q : accounted fs Q [].
Proof. intros file defs d line documented H; discriminate. Qed.

Lemma accounted_parse_definition fs Q files n out files' :
  Q n -> accounted fs Q files ->
  parse_definition fs files n = (out, Returned files') ->
  accounted fs Q files'.
Proof.
  intros HQ Hacc Hrun.
  apply parse_definition_returned in Hrun as [->|(f & z & Hinc & ->)];
    [exact Hacc|].
  intros file defs d line documented Hf Hd.
  destruct (merge_entry _ _ _ _ _ _ _ _ Hf Hd)
    as [(-> & -> & Hv) | (defs0 & Hf0 & Hd0)].
  - injection Hv as -> ->. exists n; repeat split; auto.
    eapply included_not_namespace; eassumption.
  - eapply Hacc; eassumption.
Qed.

Lemma accounted_parse_tree fs Q files root out files' :
  (forall compound n,
     In compound (ET.iter "compounddef" root) ->
     n = compound \/ In n (ET.iter "memberdef" compound) -> Q n) ->
  accounted fs Q files ->
  parse_tree fs files root = (out, Returned files') ->
  accounted fs Q files'.
Proof.
  intros HQ Hacc. unfold parse_tree.
  apply (foldM_invariant _ (accounted fs Q)
           (fun c => In c (ET.iter "compounddef" root))); auto.
  intros s compound o s' Hc Hs Hbody.
  apply bind_returned in Hbody as (o1 & s1 & o2 & Hdef & Hmem & _).
  assert (Hs1 : accounted fs Q s1).
  { eapply accounted_parse_definition; [|exact Hs|exact Hdef].
    apply (HQ compound); auto. }
  revert Hmem.
  apply (foldM_invariant _ (accounted fs Q)
           (fun m => In m (ET.iter "memberdef" compound))); auto.
  intros s2 m o3 s3 Hm Hs2 Hrun.
  eapply accounted_parse_definition; [|exact Hs2|exact Hrun].
  apply (HQ compound); auto.
Qed.

(** C8. Whatever the directory holds, every entry of every file record
    of the index that [parse] returns was merged for a classified
    element whose kind attribute is not [namespace] and which passes the
    tests of the classifier, with that element's id, line and documented
    flag: no entry stands for a namespace, documented or not. *)
Theorem namespace_never_recorded :
  forall fs path out files,
    parse fs path = (out, Returned files) ->
    forall file defs d line documented,
      idx_get file files = Some defs ->
      rec_get d defs = Some (line, documented) ->
      exists n,
        classified fs path n /\
        ET.get "kind" n <> Some "namespace" /\
        included fs n file line /\
        make_defid n = d /\ is_documented n = documented.
Proof.
  intros fs path out files Hrun.
  change (accounted fs (classified fs path) files).
  revert Hrun. unfold parse.
  destruct (negb (exists_ fs (path_join path "index.xml"))); [discriminate|].
  destruct (et_parse fs (path_join path "index.xml")) as [index|] eqn:Hindex;
    [|discriminate].
  apply (foldM_invariant _ (accounted fs (classified fs path))
           (fun e => In e (ET.findall "compound" index)));
    [| auto | apply accounted_empty].
  intros s entry o s' Hentry Hs.
  destruct (Py.in_tuple (ET.get "kind" entry) ["dir"; "group"]) eqn:Hkind;
    [intros H; injection H as _ <-; exact Hs|].
  destruct (isfile fs _) eqn:Hfile; [|intros H; injection H as _ <-; exact Hs].
  unfold parse_file.
  destruct (et_parse fs (path_join path (_ ++ _)%string)) as [root|] eqn:Hroot;
    [|discriminate].
  apply accounted_parse_tree; [|exact Hs].
  intros compound n Hc Hn. now exists index, entry, root, compound.
Qed.

Lemma namespace_never_recorded_witness :
  parse disk_with_namespace "xml" =
  ([], Returned [("/src/api.h", [(Some "add(int a, int b)", (10, true));
                                 (Some "sub(int a, int b)", (20, false))])]) /\
  exists n,
    classified disk_with_namespace "xml" n /\
    ET.get "kind" n <> Some "namespace" /\
    included disk_with_namespace n "/src/api.h" 20 /\
    make_defid n = Some "sub(int a, int b)" /\ is_documented n = false.
Proof.
  split; [reflexivity|].
  apply (namespace_never_recorded disk_with_namespace "xml" []
           [("/src/api.h", [(Some "add(int a, int b)", (10, true));
                            (Some "sub(int a, int b)", (20, false))])]
           eq_refl "/src/api.h"
           [(Some "add(int a, int b)", (10, true));
            (Some "sub(int a, int b)", (20, false))]
           (Some "sub(int a, int b)") 20 false eq_refl eq_refl).
Defined.

(** *** Definition ids: overloads and collisions *)





Lemma included_in_api_h (n : Element) (k ln : string) (line : Z) :
  ET.get "kind" n = Some k ->
  Py.str_in k "namespace" = false ->
  String.eqb k "function" && Py.eq_lit (ET.get "static" n) "yes" = false ->
  ET.find "location" n = Some (Sample.location "api.h" ln) ->
  Py.int ln = Some line ->
  included Sample.disk n "/src/api.h" line.
Proof.
  intros Hk Hns Hst Hl Hint.
  now apply (Included Sample.disk n _ _ k (Sample.location "api.h" ln)
               "api.h" ln).
Defined.


(** An [argsstring] child without text is formatted as [None]. *)
Remark empty_argsstring_reads_none :
  make_defid (Elem "memberdef" [("kind", "variable")] None
                [Elem "name" [] (Some "count") []; Elem "argsstring" [] None []])
  = Some "countNone".
Proof. reflexivity. Qed.

(** ** The reporter *)

(** *** The sort key *)

Lemma count_all {A} (p : A -> bool) (l : list A) :
  (forall x, p x = true) -> count p l = Z.of_nat (List.length l).
Proof.
  intros H; unfold count. f_equal. f_equal.
  induction l as [|x l IH]; simpl; [reflexivity|]. now rewrite H, IH.
Qed.

Lemma count_none {A} (p : A -> bool) (l : list A) :
  (forall x, p x = false) -> count p l = 0.
Proof.
  intros H; unfold count.
  induction l as [|x l IH]; simpl; [reflexivity|]. now rewrite H.
Qed.

Lemma percent_all (n : Z) : 0 < n -> (percent n (n + 0) == 100)%Q.
Proof.
  intros Hn. unfold percent. rewrite Z.add_0_r, inject_Z_mult. field.
  intros H. apply (inject_Z_injective n 0) in H. lia.
Qed.

(** Every pair is true, so [doc_yes] is the number of definitions of the
    file and [doc_no] is zero: the key is 100 for every file. *)
Lemma get_coverage_is_100 (files : CoverageIndex) (f : string) :
  (get_coverage files f == 100)%Q.
Proof.
  unfold get_coverage. destruct (index_item files f) as [|e defs] eqn:Hdefs.
  - reflexivity.
  - cbn [Dict.is_empty].
    rewrite (count_all pair_truth) by reflexivity.
    rewrite (count_none (fun d => negb (pair_truth d))) by reflexivity.
    apply percent_all. unfold Dict.values; simpl. lia.
Qed.

Lemma file_cmp_is_eq (files : CoverageIndex) (a b : string) :
  file_cmp files a b = Eq.
Proof.
  unfold file_cmp, Py.cmp_num. apply Qeq_alt.
  now rewrite !get_coverage_is_100.
Qed.

Lemma sort_all_equal {A} (cmp : A -> A -> comparison) (l : list A) :
  (forall a b, cmp a b = Eq) -> Py.sort cmp l = l.
Proof.
  intros H; induction l as [|x l IH]; [reflexivity|].
  change (Py.sort cmp (x :: l)) with (Py.insert cmp x (Py.sort cmp l)).
  rewrite IH. destruct l as [|y l]; simpl; [reflexivity|].
  now rewrite H.
Qed.

(** The sort moves nothing: the files are visited in the reverse of the
    iteration order of the index, whatever their coverage. *)
Lemma files_sorted_is_reversed_keys (files : CoverageIndex) :
  files_sorted files = rev (Dict.keys files).
Proof.
  unfold files_sorted. now rewrite sort_all_equal by apply file_cmp_is_eq.
Qed.

(** *** Totals *)

Lemma zsum_app (l1 l2 : list Z) : zsum (l1 ++ l2) = zsum l1 + zsum l2.
Proof. induction l1 as [|x l1 IH]; simpl; [reflexivity | rewrite IH; lia]. Qed.

Lemma zsum_rev (l : list Z) : zsum (rev l) = zsum l.
Proof.
  induction l as [|x l IH]; simpl; [reflexivity|].
  rewrite zsum_app, IH; simpl; lia.
Qed.

Lemma count_app {A} (p : A -> bool) (l1 l2 : list A) :
  count p (l1 ++ l2) = count p l1 + count p l2.
Proof. unfold count. rewrite filter_app, length_app. lia. Qed.

Lemma count_ext {A} (p q : A -> bool) (l : list A) :
  (forall x, p x = q x) -> count p l = count q l.
Proof. intros H; unfold count. now rewrite (filter_ext p q H). Qed.

Lemma count_split {A} (p : A -> bool) (l : list A) :
  count p l + count (fun x => negb (p x)) l = Z.of_nat (List.length l).
Proof.
  unfold count. induction l as [|x l IH]; [reflexivity|].
  cbn [filter]. destruct (p x); cbn [negb List.length] in *; lia.
Qed.

Lemma count_nonneg {A} (p : A -> bool) (l : list A) : 0 <= count p l.
Proof. unfold count; lia. Qed.

Lemma count_flat_map {A B} (p : B -> bool) (g : A -> list B) (l : list A) :
  count p (flat_map g l) = zsum (map (fun x => count p (g x)) l).
Proof.
  induction l as [|x l IH]; simpl; [reflexivity|]. now rewrite count_app, IH.
Qed.

(** In a dict each key leads to its own value. *)
Lemma index_item_of_key (files : CoverageIndex) (f : string) (defs : FileRecord) :
  Dict.wf files -> In (f, defs) files -> index_item files f = defs.
Proof.
  intros Hwf Hin. unfold index_item, idx_get.
  now rewrite (In_get _ String.eqb_spec _ _ _ Hwf Hin).
Qed.

Lemma items_of_keys (files : CoverageIndex) :
  Dict.wf files ->
  map (index_item files) (Dict.keys files) = map snd files.
Proof.
  intros Hwf. unfold Dict.keys. rewrite map_map. apply map_ext_in.
  intros [f defs] Hin. now apply index_item_of_key.
Qed.

Lemma sum_over_keys (files : CoverageIndex) (p : Z * bool -> bool) :
  Dict.wf files ->
  zsum (map (fun f => count p (Dict.values (index_item files f)))
            (rev (Dict.keys files)))
  = count p (all_entries files).
Proof.
  intros Hwf. rewrite map_rev, zsum_rev.
  rewrite <- (map_map (index_item files) (fun defs => count p (Dict.values defs))).
  rewrite (items_of_keys _ Hwf), map_map.
  unfold all_entries. now rewrite count_flat_map.
Qed.

(** *** The loop over the files *)

Lemma printed_files_file pct f yes total out :
  printed_files (FileLine pct f yes total :: out) = f :: printed_files out.
Proof. reflexivity. Qed.

Lemma report_undocumented_returns (defs : FileRecord) :
  exists out,
    report_undocumented defs = (out, Returned tt) /\
    Forall per_file_line out /\ printed_files out = [].
Proof.
  unfold report_undocumented.
  induction (Py.sort Py.cmp_ostr (Dict.keys defs)) as [|d ds IH]; simpl.
  - exists []; repeat split; constructor.
  - destruct IH as (out & Hrun & Hall & Hnone).
    assert (Hone : exists o,
               match rec_get d defs with
               | Some (line, state) =>
                   if negb state then print (UndocLine line d) else ret tt
               | None => ret tt
               end = (o, Returned tt) /\
               Forall per_file_line o /\ printed_files o = []).
    { destruct (rec_get d defs) as [[line [|]]|]; simpl;
        eexists; (split; [reflexivity|]); split;
        repeat constructor. }
    destruct Hone as (o & -> & Ho & Hno). simpl. rewrite Hrun.
    exists (o ++ out); split; [reflexivity|]. split.
    + apply Forall_app; auto.
    + unfold printed_files in *. now rewrite flat_map_app, Hno, Hnone.
Qed.

Lemma report_file_returns (files : CoverageIndex) (ty tn : Z) (f : string) :
  exists out,
    report_file files (ty, tn) f =
    (out, Returned (ty + count snd (Dict.values (index_item files f)),
                    tn + count (fun e => negb (snd e))
                           (Dict.values (index_item files f)))) /\
    Forall per_file_line out /\
    printed_files out = (if has_definitions files f then [f] else []).
Proof.
  unfold report_file, has_definitions.
  destruct (index_item files f) as [|e defs] eqn:Hitem.
  - exists []; simpl. unfold count; simpl. rewrite !Z.add_0_r.
    repeat split; constructor.
  - cbn [Dict.is_empty negb].
    destruct (report_undocumented_returns (e :: defs)) as (o & Hu & Hall & Hno).
    rewrite (count_ext (fun '(_, d) => d) snd) by (now intros []).
    rewrite (count_ext (fun '(_, d) => negb d) (fun e => negb (snd e)))
      by (now intros []).
    unfold bind, print, ret. rewrite Hu. simpl.
    eexists; split; [reflexivity|]. split.
    + constructor; [exact I|]. now rewrite app_nil_r.
    + rewrite app_nil_r, printed_files_file. now rewrite Hno.
Qed.

Lemma report_loop_returns (files : CoverageIndex) (ks : list string) :
  forall ty tn,
  exists out,
    foldM (report_file files) (ty, tn) ks =
    (out,
     Returned
       (ty + zsum (map (fun f => count snd (Dict.values (index_item files f))) ks),
        tn + zsum (map (fun f => count (fun e => negb (snd e))
                                   (Dict.values (index_item files f))) ks))) /\
    Forall per_file_line out /\
    printed_files out = filter (has_definitions files) ks.
Proof.
  induction ks as [|f ks IH]; intros ty tn; simpl.
  - exists []; rewrite !Z.add_0_r; repeat split; constructor.
  - destruct (report_file_returns files ty tn f) as (o1 & -> & H1 & P1).
    simpl.
    destruct (IH (ty + count snd (Dict.values (index_item files f)))
                 (tn + count (fun e => negb (snd e))
                         (Dict.values (index_item files f))))
      as (o2 & -> & H2 & P2).
    exists (o1 ++ o2). rewrite !Z.add_assoc. split; [reflexivity|]. split.
    + apply Forall_app; auto.
    + unfold printed_files in *. rewrite flat_map_app, P1, P2.
      now destruct (has_definitions files f).
Qed.

(** *** The global line and the signal *)

Lemma totals_add_up (files : CoverageIndex) :
  total_documented files + total_undocumented files = total_definitions files.
Proof. apply count_split. Qed.

(** With at least one definition the reporter prints the lines of the
    files, a blank line and the global line, and returns the signal. *)
Lemma report_returns (files : CoverageIndex) (t : Z) :
  Dict.wf files -> total_definitions files <> 0 ->
  exists out,
    report files t =
    (out ++ [BlankLine;
             TotalLine (total_documented files * 100 / total_definitions files)],
     Returned
       (if total_documented files * 100 / total_definitions files >? t then 0
        else t - total_documented files * 100 / total_definitions files)) /\
    Forall per_file_line out /\
    printed_files out = filter (has_definitions files) (rev (Dict.keys files)).
Proof.
  intros Hwf Hn. unfold report. rewrite files_sorted_is_reversed_keys.
  destruct (report_loop_returns files (rev (Dict.keys files)) 0 0)
    as (out & -> & Hall & Hprinted).
  rewrite !(sum_over_keys files _ Hwf), !Z.add_0_l.
  fold (total_documented files) (total_undocumented files).
  exists out. unfold bind at 1. rewrite totals_add_up.
  destruct (total_definitions files =? 0) eqn:Hz; [lia|].
  split; [reflexivity | auto].
Qed.

Lemma no_entries_no_records (files : CoverageIndex) :
  total_definitions files = 0 ->
  forall f defs, In (f, defs) files -> defs = [].
Proof.
  unfold total_definitions, all_entries. intros H f defs Hin.
  assert (Hnil : flat_map (fun fd => Dict.values (snd fd)) files = [])
    by (apply length_zero_iff_nil; lia).
  destruct defs as [|e defs]; [reflexivity|]. exfalso.
  revert Hnil. apply flat_map_nonempty. exists (f, e :: defs).
  split; [exact Hin | discriminate].
Qed.

Lemma report_loop_without_definitions (files : CoverageIndex) (ks : list string) :
  (forall f, index_item files f = []) ->
  forall totals, foldM (report_file files) totals ks = ([], Returned totals).
Proof.
  intros Hnone. induction ks as [|f ks IH]; intros totals; [reflexivity|].
  cbn [foldM]. unfold report_file at 1. rewrite (Hnone f). cbn [Dict.is_empty].
  unfold ret. rewrite bind_nil_returned. apply IH.
Qed.

(** C10. When the index holds no definition at all (it is empty, or all
    its file records are empty), the reporter prints nothing, neither a
    file line nor the global line, and does not return: the global
    percentage divides by the zero total and raises. *)
Theorem no_definitions_divides_by_zero :
  forall files t,
    total_definitions files = 0 ->
    report files t = ([], Raised ZeroDivisionError).
Proof.
  intros files t Hzero.
  assert (Hnone : forall f, index_item files f = []).
  { intros f. unfold index_item.
    destruct (idx_get f files) as [defs|] eqn:Hget; [|reflexivity].
    apply (get_In _ String.eqb_spec) in Hget.
    eapply no_entries_no_records; eassumption. }
  unfold report.
  now rewrite (report_loop_without_definitions files _ Hnone).
Qed.

Lemma no_definitions_divides_by_zero_witness :
  report [] 80 = ([], Raised ZeroDivisionError) /\
  report Indexes.only_empty_records 80 = ([], Raised ZeroDivisionError).
Proof.
  split.
  - apply (no_definitions_divides_by_zero [] 80); reflexivity.
  - apply (no_definitions_divides_by_zero Indexes.only_empty_records 80);
      reflexivity.
Defined.

(** C4. With [d] documented definitions out of [n > 0] in the index,
    the percentage of the global line, which is also the one compared
    with the threshold, is [d * 100 / n] with the fraction dropped:
    the largest integer [p] with [p * n <= d * 100]. Seven out of
    eleven give 63. *)
Theorem global_percentage_is_truncated :
  forall files t d n,
    Dict.wf files ->
    total_documented files = d ->
    total_definitions files = n ->
    0 < n ->
    exists out p,
      report files t =
      (out ++ [BlankLine; TotalLine p],
       Returned (if p >? t then 0 else t - p)) /\
      Forall per_file_line out /\
      p = Z.quot (d * 100) n /\
      p * n <= d * 100 < (p + 1) * n /\
      (d = 7 -> n = 11 -> p = 63).
Proof.
  intros files t d n Hwf Hd Hn Hpos.
  destruct (report_returns files t Hwf) as (out & Hrun & Hall & _); [lia|].
  rewrite Hd, Hn in Hrun.
  assert (Hd0 : 0 <= d) by (rewrite <- Hd; apply count_nonneg).
  exists out, (d * 100 / n). split; [exact Hrun|]. split; [exact Hall|].
  split; [|split].
  - symmetry; apply Z.quot_div_nonneg; lia.
  - pose proof (Z.mul_div_le (d * 100) n Hpos).
    pose proof (Z.mul_succ_div_gt (d * 100) n Hpos). lia.
  - intros -> ->. reflexivity.
Qed.

Lemma global_percentage_is_truncated_witness :
  exists out,
    report Indexes.seven_of_eleven 80 =
    (out ++ [BlankLine; TotalLine 63], Returned 17).
Proof.
  destruct (global_percentage_is_truncated Indexes.seven_of_eleven 80 7 11)
    as (out & p & Hrun & _ & _ & _ & Hp).
  - repeat constructor; simpl; intuition discriminate.
  - reflexivity.
  - reflexivity.
  - lia.
  - exists out. rewrite Hrun, (Hp eq_refl eq_refl). reflexivity.
Defined.

(** C3, as stated, fails at the threshold itself: with four definitions
    documented out of five and the default threshold 80 the percentage
    is 80, which does not exceed the threshold, and the value returned,
    threshold minus percentage, is 0 and not a positive number. *)
Lemma signal_at_threshold_is_zero :
  total_documented Indexes.four_of_five * 100
    / total_definitions Indexes.four_of_five = 80 /\
  ~ (80 > 80) /\
  snd (report Indexes.four_of_five 80) = Returned (80 - 80) /\
  ~ (0 < 80 - 80).
Proof. repeat split; try reflexivity; lia. Qed.

(** C3, amended. For an index with at least one definition and global
    percentage [p], the reporter returns 0 when [p] exceeds the
    threshold [t], and [t - p] otherwise; that value is positive when
    [p] is below the threshold and is 0 when [p] equals it. *)
Theorem signal_is_zero_or_shortfall :
  forall files t p,
    Dict.wf files ->
    0 < total_definitions files ->
    p = total_documented files * 100 / total_definitions files ->
    (p > t -> snd (report files t) = Returned 0) /\
    (p <= t -> snd (report files t) = Returned (t - p)) /\
    (p < t -> 0 < t - p) /\
    (p = t -> t - p = 0).
Proof.
  intros files t p Hwf Hpos ->.
  destruct (report_returns files t Hwf) as (out & Hrun & _); [lia|].
  rewrite Hrun; simpl. repeat split; intros H; try lia.
  - destruct (Z.gtb_spec (total_documented files * 100 / total_definitions files) t);
      [reflexivity | lia].
  - destruct (Z.gtb_spec (total_documented files * 100 / total_definitions files) t);
      [lia | reflexivity].
Qed.

Lemma signal_is_zero_or_shortfall_witness :
  snd (report Indexes.seven_of_eleven 60) = Returned 0 /\
  snd (report Indexes.seven_of_eleven 80) = Returned (80 - 63) /\
  snd (report Indexes.four_of_five 80) = Returned (80 - 80).
Proof.
  assert (Hwf7 : Dict.wf Indexes.seven_of_eleven)
    by (repeat constructor; simpl; intuition discriminate).
  assert (Hwf4 : Dict.wf Indexes.four_of_five)
    by (repeat constructor; simpl; intuition discriminate).
  split; [|split].
  - apply (signal_is_zero_or_shortfall Indexes.seven_of_eleven 60 63 Hwf7);
      [reflexivity | reflexivity | lia].
  - apply (signal_is_zero_or_shortfall Indexes.seven_of_eleven 80 63 Hwf7);
      [reflexivity | reflexivity | lia].
  - apply (signal_is_zero_or_shortfall Indexes.four_of_five 80 80 Hwf4);
      [reflexivity | reflexivity | lia].
Defined.

(** C1 fails on the code. The sort key [get_coverage] is the same for
    every file, so the files are printed in the reverse of the iteration
    order of the index: with the fully documented [a.c] iterated before
    the undocumented [b.c], the line of [b.c] (0%) comes before the line
    of [a.c] (100%); and with the records exchanged the order of the
    lines stays the same. *)
Theorem report_order_ignores_coverage :
  (file_coverage Indexes.undocumented_file < file_coverage Indexes.documented_file)%Q /\
  (get_coverage Indexes.high_then_low "/src/a.c"
   == get_coverage Indexes.high_then_low "/src/b.c")%Q /\
  report Indexes.high_then_low 80 =
  ([FileLine 0 "/src/b.c" 0 1; UndocLine 2 (Some "g()");
    FileLine 100 "/src/a.c" 1 1; BlankLine; TotalLine 50], Returned 30) /\
  report Indexes.low_then_high 80 =
  ([FileLine 100 "/src/b.c" 1 1;
    FileLine 0 "/src/a.c" 0 1; UndocLine 2 (Some "g()");
    BlankLine; TotalLine 50], Returned 30).
Proof. repeat split. Qed.

(** X13. What the order is, for every index with a definition: the
    files that have definitions get their lines in the reverse of the
    iteration order of the index, whatever their coverage. *)
Lemma report_prints_files_in_reverse_key_order (files : CoverageIndex) (t : Z) :
  Dict.wf files -> total_definitions files <> 0 ->
  printed_files (fst (report files t)) =
  filter (has_definitions files) (rev (Dict.keys files)).
Proof.
  intros Hwf Hn. destruct (report_returns files t Hwf Hn) as (out & -> & _ & Hp).
  simpl. unfold printed_files in *. rewrite flat_map_app, Hp. simpl.
  now rewrite app_nil_r.
Qed.

(** * Further properties of the classifier *)

(** X1. The classifier raises in two cases only, and prints nothing
    when it does: [TypeError] when the element has no kind attribute,
    and [ValueError] when the element passes the kind tests, its
    location names a file that is on disk, and its line attribute does
    not read as an integer. A line that is not a number goes unnoticed
    when the file is missing. *)
Theorem parse_definition_raises_iff :
  forall fs files n out e,
    parse_definition fs files n = (out, Raised e) <->
    out = [] /\
    ((ET.get "kind" n = None /\ e = TypeError) \/
     (exists k l f ln,
        ET.get "kind" n = Some k /\
        Py.str_in k "namespace" = false /\
        String.eqb k "function" && Py.eq_lit (ET.get "static" n) "yes" = false /\
        ET.find "location" n = Some l /\
        ET.get "file" l = Some f /\
        ET.get "line" l = Some ln /\
        isfile fs f = true /\
        Py.int ln = None /\
        e = ValueError)).
Proof.
  intros fs files n out e. unfold parse_definition. split.
  - destruct (ET.get "kind" n) as [k|] eqn:Hk.
    + destruct (Py.str_in k "namespace") eqn:Hns; [discriminate|].
      destruct (String.eqb k "function" && Py.eq_lit (ET.get "static" n) "yes")
        eqn:Hst; [discriminate|].
      destruct (ET.find "location" n) as [l|] eqn:Hl; [|discriminate].
      destruct (ET.get "line" l) as [ln|] eqn:Hln; [|discriminate].
      destruct (ET.get "file" l) as [f|] eqn:Hf; [|discriminate].
      destruct (isfile fs f) eqn:Hfile; simpl; [|discriminate].
      destruct (Py.int ln) as [z|] eqn:Hint; [discriminate|].
      intros H; injection H as <- <-. split; [reflexivity|]. right.
      exists k, l, f, ln. repeat split; assumption.
    + intros H; injection H as <- <-. split; [reflexivity|]. now left.
  - intros [-> [[Hk ->] | (k & l & f & ln & Hk & Hns & Hst & Hl & Hf & Hln
                            & Hfile & Hint & ->)]].
    + now rewrite Hk.
    + now rewrite Hk, Hns, Hst, Hl, Hln, Hf, Hfile, Hint.
Qed.

(** X2. Storing and finding again: after an included definition is
    classified, the record of its file holds its (line, documented) pair
    under its id; the other ids of that record and the records of the
    other files are as before. *)
Theorem classified_definition_is_stored :
  forall fs files n file line,
    included fs n file line ->
    exists files' defs,
      parse_definition fs files n = ([], Returned files') /\
      idx_get file files' = Some defs /\
      rec_get (make_defid n) defs = Some (line, is_documented n) /\
      (forall d, d <> make_defid n ->
         rec_get d defs = match idx_get file files with
                          | Some defs0 => rec_get d defs0
                          | None => None
                          end) /\
      (forall file', file' <> file -> idx_get file' files' = idx_get file' files).
Proof.
  intros fs files n file line Hinc.
  destruct (merge_get_same files file (make_defid n) (line, is_documented n))
    as (defs & Hget & Hsame & Hother).
  exists (merge files file (make_defid n) (line, is_documented n)), defs.
  split; [now apply parse_definition_included|].
  repeat split; auto.
  intros file' Hne. now apply merge_get_other.
Qed.

Lemma classified_definition_is_stored_witness :
  exists files' defs,
    parse_definition Sample.disk Indexes.four_of_five Sample.sub
      = ([], Returned files') /\
    idx_get "/src/api.h" files' = Some defs /\
    rec_get (Some "sub(int a, int b)") defs = Some (20, false) /\
    rec_get (Some "e") defs = Some (5, false).
Proof.
  destruct (classified_definition_is_stored Sample.disk Indexes.four_of_five
              Sample.sub "/src/api.h" 20
              (included_in_api_h Sample.sub "function" "20" 20
                 eq_refl eq_refl eq_refl eq_refl eq_refl))
    as (files' & defs & Hrun & Hget & Hown & Hothers & _).
  exists files', defs. repeat split; auto.
  rewrite (Hothers (Some "e")); [reflexivity | discriminate].
Defined.

Lemma set_set_same {K V} (eqb : K -> K -> bool)
    (eqb_spec : forall a b, reflect (a = b) (eqb a b)) (k : K) (v : V)
    (d : Dict.t) :
  Dict.set eqb k v (Dict.set eqb k v d) = Dict.set eqb k v d.
Proof.
  induction d as [|[k' v'] d IH]; simpl.
  - now destruct (eqb_spec k k).
  - destruct (eqb_spec k k') as [->|Hne]; simpl.
    + now destruct (eqb_spec k' k').
    + destruct (eqb_spec k k'); [contradiction | now rewrite IH].
Qed.

Lemma merge_merge_same files file d v :
  merge (merge files file d v) file d v = merge files file d v.
Proof.
  unfold merge at 1. unfold merge at 1. unfold idx_get, idx_set.
  rewrite (get_set_same _ String.eqb_spec).
  unfold rec_set. rewrite (set_set_same _ defid_eqb_spec).
  unfold merge, idx_set, rec_set.
  apply (set_set_same _ String.eqb_spec).
Qed.

(** X3. Doxygen lists a member in every compound it belongs to. A
    definition that is classified a second time, right after the first,
    changes nothing: the index after the second pass is the index after
    the first. *)
Theorem classifying_twice_is_classifying_once :
  forall fs files n file line,
    included fs n file line ->
    exists files',
      parse_definition fs files n = ([], Returned files') /\
      parse_definition fs files' n = ([], Returned files') /\
      foldM (parse_definition fs) files [n; n] = ([], Returned files').
Proof.
  intros fs files n file line Hinc.
  exists (merge files file (make_defid n) (line, is_documented n)).
  assert (H1 := parse_definition_included fs files n file line Hinc).
  assert (H2 := parse_definition_included fs
                  (merge files file (make_defid n) (line, is_documented n))
                  n file line Hinc).
  rewrite merge_merge_same in H2.
  split; [exact H1|]. split; [exact H2|].
  cbn [foldM]. rewrite H1. unfold ret. rewrite bind_nil_returned.
  now rewrite H2.
Qed.

Lemma classifying_twice_is_classifying_once_witness :
  foldM (parse_definition Sample.disk) [] [Sample.add; Sample.add] =
  ([], Returned [("/src/api.h", [(Some "add(int a, int b)", (10, true))])]).
Proof.
  destruct (classifying_twice_is_classifying_once Sample.disk [] Sample.add
              "/src/api.h" 10
              (included_in_api_h Sample.add "function" "10" 10
                 eq_refl eq_refl eq_refl eq_refl eq_refl))
    as (files' & H1 & _ & H2).
  rewrite H2. cbv in H1. now injection H1 as <-.
Defined.

Lemma parse_definition_raises_iff_witness :
  parse_definition Sample.disk Indexes.four_of_five bad_line_function
  = ([], Raised ValueError).
Proof.
  apply (proj2 (parse_definition_raises_iff Sample.disk Indexes.four_of_five
                  bad_line_function [] ValueError)).
  split; [reflexivity|]. right.
  exists "function", (Sample.location "api.h" "ten"), "api.h", "ten".
  repeat split.
Defined.

(** * Further properties of the walk over the documents *)

Lemma foldM_skip {S A} (body : S -> A -> M S) (p : A -> bool) :
  (forall s x, p x = false -> body s x = ret s) ->
  forall l s, foldM body s l = foldM body s (filter p l).
Proof.
  intros Hskip l; induction l as [|x l IH]; intros s; [reflexivity|].
  cbn [foldM filter]. destruct (p x) eqn:Hp.
  - cbn [foldM]. destruct (body s x) as [o [s'|e]]; [|reflexivity].
    simpl. now rewrite IH.
  - rewrite (Hskip s x Hp). unfold ret. rewrite bind_nil_returned. apply IH.
Qed.

Lemma foldM_ext_in {S A} (body body' : S -> A -> M S) (l : list A) :
  (forall s x, In x l -> body s x = body' s x) ->
  forall s, foldM body s l = foldM body' s l.
Proof.
  induction l as [|x l IH]; intros Hext s; [reflexivity|].
  cbn [foldM]. rewrite (Hext s x (or_introl eq_refl)).
  destruct (body' s x) as [o [s'|e]]; [|reflexivity].
  simpl. rewrite IH; [reflexivity|]. intros s0 y Hy. apply Hext; now right.
Qed.

(** X4. When [index.xml] is there and parses, [parse] amounts to
    [parse_file] over the documents of the compounds that are neither
    directories nor groups and whose document is a file on disk, in the
    order of the index, starting from the empty index; the other
    compounds change nothing and print nothing. *)
Theorem parse_reads_the_listed_documents :
  forall fs path index,
    exists_ fs (path_join path "index.xml") = true ->
    et_parse fs (path_join path "index.xml") = Some index ->
    parse fs path =
    foldM (fun files entry => parse_file fs files (compound_document path entry))
          [] (filter (compound_is_read fs path) (ET.findall "compound" index)).
Proof.
  intros fs path index Hex Hindex. unfold parse. rewrite Hex, Hindex.
  cbn [negb].
  rewrite (foldM_skip _ (compound_is_read fs path)).
  - apply foldM_ext_in. intros s entry Hin.
    apply filter_In in Hin as [_ Hread]. unfold compound_is_read in Hread.
    apply andb_true_iff in Hread as [Hkind Hfile].
    apply negb_true_iff in Hkind. unfold compound_document in *.
    now rewrite Hkind, Hfile.
  - intros s entry Hno. unfold compound_is_read, compound_document in Hno.
    destruct (Py.in_tuple (ET.get "kind" entry) ["dir"; "group"]);
      [reflexivity|].
    simpl in Hno. now rewrite Hno.
Qed.

Lemma parse_reads_the_listed_documents_witness :
  parse Sample.disk "xml" = parse_file Sample.disk [] "xml/api_8h.xml".
Proof.
  rewrite (parse_reads_the_listed_documents Sample.disk "xml" Sample.index_xml
             eq_refl eq_refl).
  reflexivity.
Defined.

(** An invariant of the index that the classifier keeps on every
    classified element holds for the index that [parse] returns. *)
Lemma parse_tree_invariant fs (I : CoverageIndex -> Prop) (Q : Element -> Prop)
    files root out files' :
  (forall compound n,
     In compound (ET.iter "compounddef" root) ->
     n = compound \/ In n (ET.iter "memberdef" compound) -> Q n) ->
  (forall s n o s', Q n -> I s -> parse_definition fs s n = (o, Returned s') ->
                    I s') ->
  I files ->
  parse_tree fs files root = (out, Returned files') ->
  I files'.
Proof.
  intros HQ Hstep Hfiles. unfold parse_tree.
  apply (foldM_invariant _ I (fun c => In c (ET.iter "compounddef" root))); auto.
  intros s compound o s' Hc Hs Hbody.
  apply bind_returned in Hbody as (o1 & s1 & o2 & Hdef & Hmem & _).
  assert (Hs1 : I s1).
  { eapply Hstep; [|exact Hs|exact Hdef]. apply (HQ compound); auto. }
  revert Hmem.
  apply (foldM_invariant _ I (fun m => In m (ET.iter "memberdef" compound)));
    auto.
  intros s2 m o3 s3 Hm Hs2 Hrun.
  eapply Hstep; [|exact Hs2|exact Hrun]. apply (HQ compound); auto.
Qed.

Lemma parse_invariant fs path (I : CoverageIndex -> Prop) out files :
  I [] ->
  (forall s n o s', classified fs path n -> I s ->
                    parse_definition fs s n = (o, Returned s') -> I s') ->
  parse fs path = (out, Returned files) ->
  I files.
Proof.
  intros Hnil Hstep. unfold parse.
  destruct (negb (exists_ fs (path_join path "index.xml"))); [discriminate|].
  destruct (et_parse fs (path_join path "index.xml")) as [index|] eqn:Hindex;
    [|discriminate].
  apply (foldM_invariant _ I (fun e => In e (ET.findall "compound" index)));
    auto.
  intros s entry o s' Hentry Hs.
  destruct (Py.in_tuple (ET.get "kind" entry) ["dir"; "group"]) eqn:Hkind;
    [intros H; injection H as _ <-; exact Hs|].
  destruct (isfile fs _) eqn:Hfile; [|intros H; injection H as _ <-; exact Hs].
  unfold parse_file.
  destruct (et_parse fs (path_join path (_ ++ _)%string)) as [root|] eqn:Hroot;
    [|discriminate].
  apply (parse_tree_invariant fs I (classified fs path)); auto.
  intros compound n Hc Hn. now exists index, entry, root, compound.
Qed.

Lemma included_not_static fs n file line :
  included fs n file line ->
  ~ (ET.get "kind" n = Some "function" /\ ET.get "static" n = Some "yes").
Proof.
  intros [k l f ln Hk _ Hst _ _ _ _ _ _] [Hkind Hstatic].
  rewrite Hk in Hkind; injection Hkind as ->.
  now rewrite Hstatic in Hst.
Qed.

(** X5. Static functions are left out: every entry of every file record
    of the index that [parse] returns was merged for a classified
    element that is not a function with [static="yes"], with that
    element's id, line and documented flag. *)
Theorem static_function_never_recorded :
  forall fs path out files,
    parse fs path = (out, Returned files) ->
    forall file defs d line documented,
      idx_get file files = Some defs ->
      rec_get d defs = Some (line, documented) ->
      exists n,
        classified fs path n /\
        ~ (ET.get "kind" n = Some "function" /\ ET.get "static" n = Some "yes") /\
        included fs n file line /\
        make_defid n = d /\ is_documented n = documented.
Proof.
  intros fs path out files Hrun file defs d line documented Hf Hd.
  assert (Hacc : accounted fs (classified fs path) files).
  { revert Hrun. apply parse_invariant; [apply accounted_empty|].
    intros s n o s' Hn Hs. now apply accounted_parse_definition. }
  destruct (Hacc file defs d line documented Hf Hd)
    as (n & Hn & _ & Hinc & Hid & Hdoc).
  exists n. repeat split; auto. eapply included_not_static; eassumption.
Qed.

Lemma static_function_never_recorded_witness :
  parse disk_with_static "xml" =
  ([], Returned [("/src/api.h", [(Some "add(int a, int b)", (10, true));
                                 (Some "sub(int a, int b)", (20, false))])]) /\
  exists n,
    classified disk_with_static "xml" n /\
    ~ (ET.get "kind" n = Some "function" /\ ET.get "static" n = Some "yes") /\
    included disk_with_static n "/src/api.h" 10 /\
    make_defid n = Some "add(int a, int b)" /\ is_documented n = true.
Proof.
  split; [reflexivity|].
  apply (static_function_never_recorded disk_with_static "xml" []
           [("/src/api.h", [(Some "add(int a, int b)", (10, true));
                            (Some "sub(int a, int b)", (20, false))])]
           eq_refl "/src/api.h"
           [(Some "add(int a, int b)", (10, true));
            (Some "sub(int a, int b)", (20, false))]
           (Some "add(int a, int b)") 10 true eq_refl eq_refl).
Defined.

(** *** The shape of the index *)

Section SetFacts.
Context {K V : Type} (eqb : K -> K -> bool).
Hypothesis eqb_spec : forall a b, reflect (a = b) (eqb a b).

Lemma set_In (k k' : K) (v v' : V) (d : Dict.t) :
  In (k', v') (Dict.set eqb k v d) -> (k' = k /\ v' = v) \/ In (k', v') d.
Proof.
  induction d as [|[k0 v0] d IH]; simpl.
  - intros [H|[]]; left; split; congruence.
  - destruct (eqb_spec k k0) as [->|Hne]; simpl.
    + intros [H|H]; [left; split; congruence | right; now right].
    + intros [H|H]; [right; now left|].
      destruct (IH H) as [Hnew|Hold]; [now left | right; now right].
Qed.

Lemma set_keys_In (k k' : K) (v : V) (d : Dict.t) :
  In k' (Dict.keys (Dict.set eqb k v d)) -> k' = k \/ In k' (Dict.keys d).
Proof.
  unfold Dict.keys. intros H. apply in_map_iff in H as ([k0 v0] & <- & Hin).
  apply set_In in Hin as [[-> _]|Hin]; [now left|].
  right. change k0 with (fst (k0, v0)). now apply in_map.
Qed.

Lemma set_wf (k : K) (v : V) (d : Dict.t) :
  Dict.wf d -> Dict.wf (Dict.set eqb k v d).
Proof.
  unfold Dict.wf. induction d as [|[k0 v0] d IH]; simpl; intros Hwf.
  - repeat constructor. intros [].
  - inversion Hwf as [|? ? Hnotin Hnd]; subst.
    destruct (eqb_spec k k0) as [->|Hne]; simpl.
    + now constructor.
    + constructor; [|now apply IH].
      intros Hin. apply set_keys_In in Hin as [->|Hin]; contradiction.
Qed.

Lemma set_nonempty (k : K) (v : V) (d : Dict.t) : Dict.set eqb k v d <> [].
Proof.
  destruct d as [|[k0 v0] d]; simpl; [discriminate|].
  destruct (eqb k k0); discriminate.
Qed.
End SetFacts.

Lemma index_ok_merge files file d v :
  index_ok files -> index_ok (merge files file d v).
Proof.
  intros [Hwf Hrecs]. unfold merge, idx_set, rec_set. split.
  - now apply (set_wf _ String.eqb_spec).
  - intros f defs Hin.
    apply (set_In _ String.eqb_spec) in Hin as [[-> ->]|Hin];
      [|now apply (Hrecs f)].
    split; [|apply set_nonempty].
    apply (set_wf _ defid_eqb_spec).
    destruct (idx_get file files) as [defs0|] eqn:Hget.
    + apply (get_In _ String.eqb_spec) in Hget. now apply (Hrecs file).
    + constructor.
Qed.

Lemma index_ok_parse_definition fs files n out files' :
  index_ok files ->
  parse_definition fs files n = (out, Returned files') ->
  index_ok files'.
Proof.
  intros Hok Hrun.
  apply parse_definition_returned in Hrun as [->|(f & z & _ & ->)];
    [exact Hok | now apply index_ok_merge].
Qed.

(** X6. The index that [parse] returns is a dict of non-empty dicts:
    its file names are distinct and every file record has distinct ids
    and at least one definition. The reporter's branches for a file
    without definitions are never taken on it. *)
Theorem parse_returns_nonempty_records :
  forall fs path out files,
    parse fs path = (out, Returned files) ->
    index_ok files /\
    (forall f, In f (Dict.keys files) -> has_definitions files f = true).
Proof.
  intros fs path out files Hrun.
  assert (Hok : index_ok files).
  { revert Hrun. apply parse_invariant.
    - split; [constructor | intros f defs []].
    - intros s n o s' _ Hs. now apply index_ok_parse_definition. }
  split; [exact Hok|].
  intros f Hf. destruct Hok as [Hwf Hrecs].
  unfold Dict.keys in Hf. apply in_map_iff in Hf as ([f0 defs] & <- & Hin).
  unfold has_definitions. simpl fst.
  rewrite (index_item_of_key files f0 defs Hwf Hin).
  destruct (Hrecs f0 defs Hin) as [_ Hne].
  now destruct defs.
Qed.

Lemma parse_returns_nonempty_records_witness :
  index_ok [("/src/api.h", [(Some "add(int a, int b)", (10, true));
                            (Some "sub(int a, int b)", (20, false))])].
Proof.
  exact (proj1 (parse_returns_nonempty_records Sample.disk "xml" []
                  [("/src/api.h", [(Some "add(int a, int b)", (10, true));
                                   (Some "sub(int a, int b)", (20, false))])]
                  eq_refl)).
Defined.

(** *** What the walk prints and what it keeps *)

Lemma bind_output {A B} (P : Line -> Prop) (c : M A) (k : A -> M B) :
  Forall P (fst c) ->
  (forall a, snd c = Returned a -> Forall P (fst (k a))) ->
  Forall P (fst (bind c k)).
Proof.
  destruct c as [o [a|e]]; simpl; intros Ho Hk; [|exact Ho].
  specialize (Hk a eq_refl). destruct (k a) as [o' r]; simpl in *.
  now apply Forall_app.
Qed.

Lemma foldM_output {S A} (P : Line -> Prop) (body : S -> A -> M S) (l : list A) :
  (forall s x, In x l -> Forall P (fst (body s x))) ->
  forall s, Forall P (fst (foldM body s l)).
Proof.
  induction l as [|x l IH]; intros Hbody s; simpl; [constructor|].
  apply bind_output; [apply Hbody; now left|].
  intros s' _. apply IH. intros s0 y Hy. apply Hbody; now right.
Qed.

Lemma parse_definition_output fs files n :
  Forall (skip_line fs) (fst (parse_definition fs files n)).
Proof.
  unfold parse_definition.
  destruct (ET.get "kind" n) as [k|] eqn:Hk; [|constructor].
  destruct (Py.str_in k "namespace") eqn:Hns; [constructor|].
  destruct (String.eqb k "function" && Py.eq_lit (ET.get "static" n) "yes");
    [constructor|].
  destruct (ET.find "location" n) as [l|] eqn:Hl; [|constructor].
  destruct (ET.get "line" l) as [ln|]; [|constructor].
  destruct (ET.get "file" l) as [f|] eqn:Hf; [|constructor].
  destruct (isfile fs f) eqn:Hfile; simpl.
  - destruct (Py.int ln); constructor.
  - constructor; [|constructor]. now exists k, l, f.
Qed.

(** X7. When [index.xml] is there, all that [parse] prints, whether it
    returns or stops on an exception, are the diagnostics of skipped
    definitions: each line names an element that passed the namespace
    test and whose location names a file that is not on disk. *)
Theorem parse_prints_only_skipped_definitions :
  forall fs path,
    exists_ fs (path_join path "index.xml") = true ->
    Forall (skip_line fs) (fst (parse fs path)).
Proof.
  intros fs path Hex. unfold parse. rewrite Hex. cbn [negb].
  destruct (et_parse fs (path_join path "index.xml")) as [index|];
    [|constructor].
  apply foldM_output. intros s entry _.
  destruct (Py.in_tuple (ET.get "kind" entry) ["dir"; "group"]); [constructor|].
  destruct (isfile fs _); [|constructor].
  unfold parse_file.
  destruct (et_parse fs (path_join path (_ ++ _)%string)) as [root|];
    [|constructor].
  unfold parse_tree. apply foldM_output. intros s1 compound _.
  apply bind_output; [apply parse_definition_output|].
  intros s2 _. apply foldM_output. intros s3 m _.
  apply parse_definition_output.
Qed.

Lemma parse_prints_only_skipped_definitions_witness :
  parse disk_with_stale "xml" =
  ([SkipLine gone_function],
   Returned [("/src/api.h", [(Some "add(int a, int b)", (10, true));
                             (Some "sub(int a, int b)", (20, false))])]) /\
  skip_line disk_with_stale (SkipLine gone_function) /\
  isfile disk_with_stale "gone.h" = false.
Proof.
  split; [reflexivity|]. split; [|reflexivity].
  exact (Forall_inv
           (parse_prints_only_skipped_definitions disk_with_stale "xml" eq_refl)).
Defined.

Lemma recorded_merge files file d v file0 d0 :
  recorded files file0 d0 -> recorded (merge files file d v) file0 d0.
Proof.
  intros (defs0 & v0 & Hf & Hd). unfold recorded.
  destruct (string_dec file0 file) as [->|Hne].
  - destruct (merge_get_same files file d v) as (defs & Hget & Hsame & Hother).
    exists defs. destruct (defid_eqb_spec d0 d) as [->|Hd0].
    + now exists v.
    + exists v0. split; [exact Hget|]. now rewrite (Hother d0 Hd0), Hf.
  - exists defs0, v0. split; [|exact Hd]. now rewrite merge_get_other.
Qed.

(** X8. Nothing is ever taken out of the index: an id that is recorded
    for a file before a walk over any list of elements is still recorded
    for that file after it (a later definition of the same file with the
    same id can only replace its line and flag). *)
Theorem recorded_entries_are_kept :
  forall fs nodes files out files' file d,
    foldM (parse_definition fs) files nodes = (out, Returned files') ->
    recorded files file d ->
    recorded files' file d.
Proof.
  intros fs nodes files out files' file d Hrun Hrec. revert Hrun.
  apply (foldM_invariant _ (fun s => recorded s file d) (fun _ => True));
    auto.
  intros s n o s' _ Hs Hstep.
  apply parse_definition_returned in Hstep as [->|(f & z & _ & ->)];
    [exact Hs | now apply recorded_merge].
Qed.

Lemma recorded_entries_are_kept_witness :
  recorded [("/src/api.h", [(Some "add(int a, int b)", (10, true));
                            (Some "sub(int a, int b)", (20, false))])]
           "/src/api.h" (Some "add(int a, int b)").
Proof.
  apply (recorded_entries_are_kept Sample.disk [Sample.sub; stale_static]
           [("/src/api.h", [(Some "add(int a, int b)", (10, true))])] []
           [("/src/api.h", [(Some "add(int a, int b)", (10, true));
                            (Some "sub(int a, int b)", (20, false))])]
           "/src/api.h" (Some "add(int a, int b)") eq_refl).
  exists [(Some "add(int a, int b)", (10, true))], (10, true).
  split; reflexivity.
Defined.

(** * Further properties of the reporter *)

(** *** The sort *)

Section SortFacts.
Context {A : Type} (cmp : A -> A -> comparison).

Lemma insert_perm (x : A) (l : list A) : Permutation (Py.insert cmp x l) (x :: l).
Proof.
  induction l as [|y l IH]; simpl; [reflexivity|].
  destruct (cmp x y); try reflexivity.
  rewrite IH. apply perm_swap.
Qed.

Lemma sort_perm (l : list A) : Permutation (Py.sort cmp l) l.
Proof.
  induction l as [|x l IH]; [reflexivity|].
  change (Py.sort cmp (x :: l)) with (Py.insert cmp x (Py.sort cmp l)).
  now rewrite insert_perm, IH.
Qed.

Hypothesis cmp_total : forall a b, cmp a b = Gt -> cmp b a <> Gt.
Hypothesis cmp_trans :
  forall a b c, cmp a b <> Gt -> cmp b c <> Gt -> cmp a c <> Gt.

Lemma insert_sorted (x : A) (l : list A) :
  StronglySorted (fun a b => cmp a b <> Gt) l ->
  StronglySorted (fun a b => cmp a b <> Gt) (Py.insert cmp x l).
Proof.
  induction l as [|y l IH]; intros Hs; simpl.
  - repeat constructor.
  - apply StronglySorted_inv in Hs as [Hl Hy].
    assert (Hle : cmp x y <> Gt ->
                  StronglySorted (fun a b => cmp a b <> Gt) (x :: y :: l)).
    { intros Hxy. constructor; [now constructor|].
      constructor; [exact Hxy|].
      eapply Forall_impl; [|exact Hy]. intros z Hz. now apply (cmp_trans x y z). }
    destruct (cmp x y) eqn:Hxy; try (apply Hle; congruence).
    constructor; [now apply IH|].
    apply Forall_forall. intros z Hz.
    apply (Permutation_in _ (insert_perm x l)) in Hz as [<-|Hz].
    + now apply cmp_total.
    + now apply (proj1 (Forall_forall _ _) Hy).
Qed.

Lemma sort_sorted (l : list A) :
  StronglySorted (fun a b => cmp a b <> Gt) (Py.sort cmp l).
Proof.
  induction l as [|x l IH]; [constructor|].
  change (Py.sort cmp (x :: l)) with (Py.insert cmp x (Py.sort cmp l)).
  now apply insert_sorted.
Qed.
End SortFacts.

Lemma string_compare_trans (a b c : string) :
  String.compare a b <> Gt -> String.compare b c <> Gt ->
  String.compare a c <> Gt.
Proof.
  intros Hab Hbc.
  destruct (String.compare a b) eqn:Eab; [| |congruence].
  - apply OrderedTypeEx.String_as_OT.cmp_eq in Eab as ->. exact Hbc.
  - destruct (String.compare b c) eqn:Ebc; [| |congruence].
    + apply OrderedTypeEx.String_as_OT.cmp_eq in Ebc as <-. congruence.
    + apply OrderedTypeEx.String_as_OT.cmp_lt in Eab, Ebc.
      pose proof (OrderedTypeEx.String_as_OT.lt_trans _ _ _ Eab Ebc) as Hac.
      apply OrderedTypeEx.String_as_OT.cmp_lt in Hac.
      unfold OrderedTypeEx.String_as_OT.cmp in Hac. congruence.
Qed.

Lemma cmp_ostr_total (a b : DefinitionId) :
  Py.cmp_ostr a b = Gt -> Py.cmp_ostr b a <> Gt.
Proof.
  destruct a as [x|], b as [y|]; simpl; try discriminate.
  rewrite (String.compare_antisym y x). intros ->. discriminate.
Qed.

Lemma cmp_ostr_trans (a b c : DefinitionId) : id_le a b -> id_le b c -> id_le a c.
Proof.
  unfold id_le. destruct a as [x|], b as [y|], c as [z|]; simpl;
    try congruence; try discriminate.
  apply string_compare_trans.
Qed.

(** *** The lines of the undocumented definitions *)

Lemma foldM_print_only {A} (g : A -> list Line) (body : unit -> A -> M unit) :
  (forall s x, body s x = (g x, Returned tt)) ->
  forall l s, foldM body s l = (flat_map g l, Returned tt).
Proof.
  intros Hbody l; induction l as [|x l IH]; intros s.
  - now destruct s.
  - cbn [foldM flat_map]. rewrite Hbody. cbn [bind]. now rewrite IH.
Qed.

(** The lines that the loop of lines 191-194 prints over the ids [ds]. *)
Lemma report_undocumented_lines (defs : FileRecord) (ds : list DefinitionId) :
  foldM (fun (_ : unit) d =>
           match rec_get d defs with
           | Some (line, state) =>
               if negb state then print (UndocLine line d) else ret tt
           | None => ret tt
           end) tt ds
  = (flat_map (fun d => match rec_get d defs with
                        | Some (line, false) => [UndocLine line d]
                        | _ => []
                        end) ds,
     Returned tt).
Proof.
  apply foldM_print_only. intros s d.
  now destruct (rec_get d defs) as [[line [|]]|].
Qed.

Lemma undocumented_ids_of_lines (defs : FileRecord) (ds : list DefinitionId) :
  undocumented_ids
    (flat_map (fun d => match rec_get d defs with
                        | Some (line, false) => [UndocLine line d]
                        | _ => []
                        end) ds)
  = filter (fun d => match rec_get d defs with
                     | Some (_, false) => true
                     | _ => false
                     end) ds.
Proof.
  unfold undocumented_ids.
  induction ds as [|d ds IH]; [reflexivity|].
  cbn [flat_map filter]. rewrite flat_map_app, IH.
  now destruct (rec_get d defs) as [[line [|]]|].
Qed.

Lemma StronglySorted_filter {A} (R : A -> A -> Prop) (p : A -> bool) (l : list A) :
  StronglySorted R l -> StronglySorted R (filter p l).
Proof.
  induction 1 as [|x l Hs IH Hx]; simpl; [constructor|].
  destruct (p x); [|exact IH].
  constructor; [exact IH|].
  apply Forall_forall. intros y Hy. apply filter_In in Hy as [Hy _].
  now apply (proj1 (Forall_forall _ _) Hx).
Qed.

Lemma undocumented_lines_length (defs : FileRecord) :
  Dict.wf defs ->
  forall l, incl l defs ->
    List.length
      (flat_map (fun d => match rec_get d defs with
                          | Some (line, false) => [UndocLine line d]
                          | _ => []
                          end) (Dict.keys l))
    = List.length (filter (fun e => negb (snd e)) (Dict.values l)).
Proof.
  intros Hwf l. induction l as [|[d [line state]] l IH]; intros Hincl;
    [reflexivity|].
  cbn [Dict.keys Dict.values map flat_map filter fst snd].
  fold (Dict.keys l) (Dict.values l).
  rewrite length_app, IH by (intros x Hx; apply Hincl; now right).
  unfold rec_get.
  rewrite (In_get _ defid_eqb_spec d (line, state) defs Hwf)
    by (apply Hincl; now left).
  now destruct state.
Qed.

(** X9. For a file record with distinct ids, the loop of lines 189-194
    prints one line per undocumented definition and nothing else: a line
    [(line, d)] is printed exactly when the record maps [d] to
    [(line, False)], the ids of the lines are in ascending order, and
    the number of lines is the number of undocumented definitions of
    the record. *)
Theorem undocumented_definitions_are_listed_in_order :
  forall defs,
    Dict.wf defs ->
    exists out,
      report_undocumented defs = (out, Returned tt) /\
      (forall l, In l out -> exists line d, l = UndocLine line d) /\
      (forall line d,
         In (UndocLine line d) out <-> rec_get d defs = Some (line, false)) /\
      StronglySorted id_le (undocumented_ids out) /\
      Z.of_nat (List.length out) =
      count (fun e => negb (snd e)) (Dict.values defs).
Proof.
  intros defs Hwf. unfold report_undocumented.
  rewrite report_undocumented_lines. eexists; split; [reflexivity|].
  split; [|split; [|split]].
  - intros l Hl. apply in_flat_map in Hl as (d & _ & Hl).
    destruct (rec_get d defs) as [[line [|]]|]; try contradiction.
    destruct Hl as [<-|[]]. now exists line, d.
  - intros line d. rewrite in_flat_map. split.
    + intros (d' & _ & Hl).
      destruct (rec_get d' defs) as [[line' [|]]|] eqn:Hget; try contradiction.
      destruct Hl as [H|[]]. injection H as -> ->. exact Hget.
    + intros Hget. exists d. split.
      * apply (Permutation_in _ (Permutation_sym (sort_perm _ _))).
        apply (get_In _ defid_eqb_spec) in Hget.
        unfold Dict.keys. change d with (fst (d, (line, false))).
        now apply in_map.
      * rewrite Hget. now left.
  - rewrite undocumented_ids_of_lines. apply StronglySorted_filter.
    apply sort_sorted; [apply cmp_ostr_total | apply cmp_ostr_trans].
  - unfold count. f_equal.
    rewrite <- (undocumented_lines_length defs Hwf defs (incl_refl _)).
    apply Permutation_length, Permutation_flat_map, sort_perm.
Qed.

Lemma undocumented_definitions_are_listed_in_order_witness :
  report_undocumented
    [(Some "zeta()", (9, false)); (Some "alpha()", (3, true));
     (None, (7, false)); (Some "beta()", (5, false))]
  = ([UndocLine 7 None; UndocLine 5 (Some "beta()");
      UndocLine 9 (Some "zeta()")], Returned tt).
Proof.
  destruct (undocumented_definitions_are_listed_in_order
              [(Some "zeta()", (9, false)); (Some "alpha()", (3, true));
               (None, (7, false)); (Some "beta()", (5, false))])
    as (out & Hrun & _).
  - repeat constructor; simpl; intuition discriminate.
  - rewrite Hrun. cbv in Hrun. now injection Hrun as <-.
Defined.

(** *** The line of a file *)

Lemma Qfloor_percent (yes all : Z) :
  0 < all -> Qfloor (percent yes all) = yes * 100 / all.
Proof.
  intros Hall. unfold percent. destruct all as [|p|p]; try lia.
  unfold Qdiv, Qinv, Qmult, inject_Z, Qfloor. simpl Qnum. simpl Qden.
  cbn [Qnum Qden]. now rewrite Z.mul_1_r, Pos.mul_1_l.
Qed.

Lemma count_le_length {A} (p : A -> bool) (l : list A) :
  count p l <= Z.of_nat (List.length l).
Proof.
  rewrite <- (count_split p l). pose proof (count_nonneg (fun x => negb (p x)) l).
  lia.
Qed.

(** X10. For a file whose record holds [n > 0] definitions, [d] of them
    documented, the turn of the loop of [report] first prints the line of
    the file with the counts [d] and [n] and the percentage
    [d * 100 / n] with its fraction dropped (2 of 3 is shown as 66), a
    number between 0 and 100; the lines after it are those of the
    undocumented definitions; and it adds [d] and [n - d] to the totals. *)
Theorem file_line_shows_truncated_percentage :
  forall files total_yes total_no f d n,
    index_item files f <> [] ->
    count snd (Dict.values (index_item files f)) = d ->
    Z.of_nat (List.length (index_item files f)) = n ->
    exists rest,
      report_file files (total_yes, total_no) f =
      (FileLine (d * 100 / n) f d n :: rest,
       Returned (total_yes + d, total_no + (n - d))) /\
      rest = fst (report_undocumented (index_item files f)) /\
      0 < n /\ 0 <= d <= n /\ 0 <= d * 100 / n <= 100.
Proof.
  intros files ty tn f d n Hne Hd Hn.
  assert (Hlen : Z.of_nat (List.length (Dict.values (index_item files f))) = n)
    by (unfold Dict.values; now rewrite length_map).
  assert (Hpos : 0 < n).
  { rewrite <- Hn. destruct (index_item files f); [contradiction|simpl; lia]. }
  assert (Hd0 : 0 <= d) by (rewrite <- Hd; apply count_nonneg).
  assert (Hdn : d <= n) by (rewrite <- Hd, <- Hlen; apply count_le_length).
  assert (Hno : count (fun e => negb (snd e)) (Dict.values (index_item files f))
                = n - d).
  { pose proof (count_split snd (Dict.values (index_item files f))). lia. }
  destruct (report_undocumented_returns (index_item files f))
    as (o & Hu & _ & _).
  exists o. split; [|split; [now rewrite Hu|]].
  - unfold report_file.
    destruct (index_item files f) as [|e defs] eqn:Hitem; [contradiction|].
    cbn [Dict.is_empty].
    rewrite (count_ext (fun '(_, d) => d) snd) by (now intros []).
    rewrite (count_ext (fun '(_, d) => negb d) (fun e => negb (snd e)))
      by (now intros []).
    rewrite Hd, Hno. replace (d + (n - d)) with n by lia.
    rewrite (Qfloor_percent d n Hpos).
    unfold bind, print, ret. rewrite Hu. simpl. now rewrite app_nil_r.
  - split; [exact Hpos|]. split; [lia|]. split.
    + apply Z.div_pos; lia.
    + apply Z.div_le_upper_bound; lia.
Qed.

Lemma file_line_shows_truncated_percentage_witness :
  report_file
    [("/src/api.h", [(Some "a", (1, true)); (Some "b", (2, false));
                     (Some "c", (3, true))])]
    (0, 0) "/src/api.h"
  = ([FileLine 66 "/src/api.h" 2 3; UndocLine 2 (Some "b")], Returned (2, 1)).
Proof.
  destruct (file_line_shows_truncated_percentage
              [("/src/api.h", [(Some "a", (1, true)); (Some "b", (2, false));
                               (Some "c", (3, true))])]
              0 0 "/src/api.h" 2 3)
    as (rest & Hrun & Hrest & _).
  - discriminate.
  - reflexivity.
  - reflexivity.
  - rewrite Hrun, Hrest. reflexivity.
Defined.

Lemma report_prints_files_in_reverse_key_order_witness :
  printed_files (fst (report Indexes.seven_of_eleven 80)) = ["/src/y.h"; "/src/x.h"].
Proof.
  rewrite (report_prints_files_in_reverse_key_order Indexes.seven_of_eleven 80).
  - reflexivity.
  - repeat constructor; simpl; intuition discriminate.
  - discriminate.
Defined.

(** *** The signal *)

Lemma global_percentage_bounds (files : CoverageIndex) :
  0 < total_definitions files ->
  0 <= total_documented files * 100 / total_definitions files <= 100.
Proof.
  intros Hpos.
  pose proof (count_nonneg snd (all_entries files)) as Hd.
  pose proof (count_le_length snd (all_entries files)) as Hle.
  fold (total_documented files) in Hd, Hle.
  fold (total_definitions files) in Hle.
  split; [apply Z.div_pos; lia | apply Z.div_le_upper_bound; lia].
Qed.

(** X11. For an index with at least one definition the global
    percentage [p] lies between 0 and 100, and the value that [report]
    returns is never negative and is 0 exactly when the threshold is
    met, that is when [threshold <= p]; for a threshold between 0 and
    100 it is at most the threshold. *)
Theorem signal_is_zero_iff_threshold_is_met :
  forall files t,
    Dict.wf files ->
    0 < total_definitions files ->
    exists p r,
      p = total_documented files * 100 / total_definitions files /\
      snd (report files t) = Returned r /\
      0 <= p <= 100 /\
      0 <= r /\
      (r = 0 <-> t <= p) /\
      (0 <= t <= 100 -> r <= t).
Proof.
  intros files t Hwf Hpos.
  destruct (report_returns files t Hwf) as (out & Hrun & _); [lia|].
  pose proof (global_percentage_bounds files Hpos) as Hp.
  exists (total_documented files * 100 / total_definitions files).
  eexists. split; [reflexivity|]. rewrite Hrun. split; [reflexivity|].
  split; [exact Hp|].
  destruct (Z.gtb_spec (total_documented files * 100 / total_definitions files) t);
    repeat split; intros; lia.
Qed.

Lemma signal_is_zero_iff_threshold_is_met_witness :
  snd (report Indexes.four_of_five 80) = Returned 0 /\
  snd (report Indexes.four_of_five 81) = Returned 1.
Proof.
  assert (Hwf : Dict.wf Indexes.four_of_five)
    by (repeat constructor; simpl; intuition discriminate).
  split.
  - destruct (signal_is_zero_iff_threshold_is_met Indexes.four_of_five 80 Hwf)
      as (p & r & Hp & Hr & _ & _ & Hzero & _); [reflexivity|].
    rewrite Hr. f_equal. apply Hzero. rewrite Hp. vm_compute. discriminate.
  - destruct (signal_is_zero_iff_threshold_is_met Indexes.four_of_five 81 Hwf)
      as (p & r & Hp & Hr & _ & _ & _ & _); [reflexivity|].
    rewrite Hr. vm_compute in Hr. now injection Hr as <-.
Defined.

Lemma report_without_definitions (files : CoverageIndex) (t : Z) :
  total_definitions files = 0 ->
  report files t = ([], Raised ZeroDivisionError).
Proof.
  intros Hzero.
  assert (Hnone : forall f, index_item files f = []).
  { intros f. unfold index_item.
    destruct (idx_get f files) as [defs|] eqn:Hget; [|reflexivity].
    apply (get_In _ String.eqb_spec) in Hget.
    eapply no_entries_no_records; eassumption. }
  unfold report.
  now rewrite (report_loop_without_definitions files _ Hnone).
Qed.

(** X12. The division by zero is the only way [report] fails: for
    every index, [report] returns a value exactly when the index holds
    at least one definition, and whenever it raises, the exception is
    [ZeroDivisionError]. *)
Theorem report_returns_iff_some_definition :
  forall files t,
    Dict.wf files ->
    ((exists r, snd (report files t) = Returned r) <->
     total_definitions files <> 0) /\
    (forall e, snd (report files t) = Raised e -> e = ZeroDivisionError).
Proof.
  intros files t Hwf.
  destruct (Z.eq_dec (total_definitions files) 0) as [Hz|Hnz].
  - rewrite (report_without_definitions files t Hz). simpl. split.
    + split; [intros [r H]; discriminate | contradiction].
    + intros e H; now injection H as <-.
  - destruct (report_returns files t Hwf Hnz) as (out & Hrun & _).
    rewrite Hrun. simpl. split.
    + split; [intros _; exact Hnz | intros _; eexists; reflexivity].
    + discriminate.
Qed.

Lemma report_returns_iff_some_definition_witness :
  (exists r, snd (report Indexes.seven_of_eleven 80) = Returned r) /\
  ~ (exists r, snd (report Indexes.only_empty_records 80) = Returned r).
Proof.
  split.
  - apply (proj1 (report_returns_iff_some_definition Indexes.seven_of_eleven 80
                    ltac:(repeat constructor; simpl; intuition discriminate))).
    discriminate.
  - intros H.
    apply (proj1 (report_returns_iff_some_definition Indexes.only_empty_records 80
                    ltac:(repeat constructor; simpl; intuition discriminate)))
      in H.
    now apply H.
Defined.

(** * Properties of the whole run *)

(** X14. Without [index.xml] in the directory the run prints the error
    with the path it looked for and exits with status 1, whatever the
    threshold is and also under [--noerror]. *)
Theorem missing_index_exits_with_1 :
  forall fs dir noerror threshold,
    exists_ fs (path_join dir "index.xml") = false ->
    parse fs dir =
    ([ErrorLine "Documentation not present. Exiting." (path_join dir "index.xml")],
     Raised (SystemExit 1)) /\
    main fs dir noerror threshold =
    ([ErrorLine "Documentation not present. Exiting." (path_join dir "index.xml")],
     Raised (SystemExit 1)).
Proof.
  intros fs dir noerror threshold Hex.
  assert (Hparse : parse fs dir =
            ([ErrorLine "Documentation not present. Exiting."
                (path_join dir "index.xml")], Raised (SystemExit 1))).
  { unfold parse. now rewrite Hex. }
  split; [exact Hparse|]. unfold main. now rewrite Hparse.
Qed.

Lemma missing_index_exits_with_1_witness :
  main no_disk "doc/xml" true 80 =
  ([ErrorLine "Documentation not present. Exiting." "doc/xml/index.xml"],
   Raised (SystemExit 1)).
Proof.
  exact (proj2 (missing_index_exits_with_1 no_disk "doc/xml" true 80 eq_refl)).
Defined.

Lemma index_ok_has_definitions (files : CoverageIndex) :
  index_ok files -> files <> [] -> 0 < total_definitions files.
Proof.
  intros [_ Hrecs] Hne. destruct files as [|[f defs] files]; [contradiction|].
  destruct (Hrecs f defs (or_introl eq_refl)) as [_ Hdefs].
  unfold total_definitions, all_entries. cbn [flat_map snd].
  rewrite length_app. unfold Dict.values.
  destruct defs; [contradiction | simpl; lia].
Qed.

(** X15. A run whose [parse] returns an index with at least one file
    goes through the reporter without failing: under [--noerror] it ends
    normally, and otherwise it exits with the value of [report], which
    is 0 exactly when the global percentage reaches the threshold. What
    is printed is the same in both cases. *)
Theorem run_exits_with_the_signal :
  forall fs dir threshold out files,
    parse fs dir = (out, Returned files) ->
    files <> [] ->
    exists lines r,
      report files threshold = (lines, Returned r) /\
      main fs dir true threshold = (out ++ lines, Returned tt) /\
      main fs dir false threshold = (out ++ lines, Raised (SystemExit r)) /\
      (r = 0 <->
       threshold <= total_documented files * 100 / total_definitions files).
Proof.
  intros fs dir t out files Hparse Hne.
  assert (Hok : index_ok files).
  { revert Hparse. apply parse_invariant.
    - split; [constructor | intros f defs []].
    - intros s n o s' _ Hs. now apply index_ok_parse_definition. }
  pose proof (index_ok_has_definitions files Hok Hne) as Hpos.
  destruct Hok as [Hwf _].
  destruct (report_returns files t Hwf) as (lines & Hrun & _); [lia|].
  set (p := total_documented files * 100 / total_definitions files) in *.
  exists (lines ++ [BlankLine; TotalLine p]), (if p >? t then 0 else t - p).
  split; [exact Hrun|].
  unfold main. rewrite Hparse. cbn [bind]. rewrite Hrun.
  unfold raise, ret. cbn [bind]. rewrite !app_nil_r.
  split; [reflexivity|]. split; [reflexivity|].
  destruct (Z.gtb_spec p t); split; intros; lia.
Qed.

Lemma run_exits_with_the_signal_witness :
  main Sample.disk "xml" true 80 =
  ([FileLine 50 "/src/api.h" 1 2; UndocLine 20 (Some "sub(int a, int b)");
    BlankLine; TotalLine 50], Returned tt) /\
  main Sample.disk "xml" false 80 =
  ([FileLine 50 "/src/api.h" 1 2; UndocLine 20 (Some "sub(int a, int b)");
    BlankLine; TotalLine 50], Raised (SystemExit 30)).
Proof.
  destruct (run_exits_with_the_signal Sample.disk "xml" 80 []
              [("/src/api.h", [(Some "add(int a, int b)", (10, true));
                               (Some "sub(int a, int b)", (20, false))])]
              eq_refl)
    as (lines & r & Hrun & Htrue & Hfalse & _); [discriminate|].
  vm_compute in Hrun. injection Hrun as <- <-.
  split; [exact Htrue | exact Hfalse].
Defined.

(** X16. A run whose [parse] returns the empty index (the index lists no
    compound that is read, or no definition of the documents is
    included) does not report 0% or 100%: it stops on the division by
    zero, under [--noerror] too, having printed only what [parse]
    printed. *)
Theorem run_without_definitions_fails :
  forall fs dir noerror threshold out,
    parse fs dir = (out, Returned []) ->
    main fs dir noerror threshold = (out, Raised ZeroDivisionError).
Proof.
  intros fs dir noerror t out Hparse. unfold main. rewrite Hparse.
  cbn [bind]. rewrite (report_without_definitions [] t eq_refl).
  cbn [bind]. now rewrite app_nil_r.
Qed.

Lemma run_without_definitions_fails_witness :
  main empty_disk "xml" true 80 = ([], Raised ZeroDivisionError).
Proof.
  exact (run_without_definitions_fails empty_disk "xml" true 80 [] eq_refl).
Defined.
